(** * Operation and workflow resolution of the ARIA parser

    A shallow embedding of [aria/parser/framework/elements/operation.py]:
    the retry-field validators ([OperationMaxRetries.validate],
    [OperationRetryInterval.validate]) and the resolution engine
    ([process_operation] with its constructors [_operation] and
    [_workflow_operation]), followed by the properties the specification
    states about them.

    Python objects are modelled as follows.
    - [str] is [string]; an [int] or [long] is [Z]; a [float] is an IEEE 754
      value ([spec_float]).
    - A [dict] that the code only reads (the plugin registry, a declaration)
      is a finite map or a record of optional fields.
    - A payload ([inputs] or [parameters]) is a mutable [dict] that the
      caller shares with the engine: it lives in a store of objects and is
      passed around by reference, so that aliasing and in-place updates are
      visible.
    - Raising is an outcome of the computation; the store survives it. *)

From Stdlib Require Import ZArith String Ascii List Bool Lia.
From Stdlib Require Import Floats.SpecFloat.
From stdpp Require Import base option list gmap strings fin_maps.

Set Warnings "-register-all".

Local Open Scope string_scope.
Local Open Scope Z_scope.

(** * The program *)

(** ** Python strings *)

Module Str.

(** [s.startswith(prefix)] *)
Fixpoint startswith (s prefix : string) {struct prefix} : bool :=
  match prefix with
  | EmptyString => true
  | String c prefix' =>
      match s with
      | EmptyString => false
      | String d s' => Ascii.eqb c d && startswith s' prefix'
      end
  end.

(** [s[n:]] for a non-negative [n] *)
Fixpoint slice_from (n : nat) (s : string) : string :=
  match n with
  | O => s
  | S n' =>
      match s with
      | EmptyString => EmptyString
      | String _ s' => slice_from n' s'
      end
  end.

(** [len(s)] *)
Definition len (s : string) : nat := String.length s.

(** Truth value of a string: [bool(s)]. *)
Definition truthy (s : string) : bool :=
  match s with
  | EmptyString => false
  | String _ _ => true
  end.

End Str.

(** ** Values, objects and the store *)

(** [int], [long] and [float] values, as accepted by
    [Leaf(type=(int, float, long))]. *)
Inductive number : Type :=
  | NInt (z : Z)
  | NFloat (f : spec_float).

(** [value < 0] on numbers: exact on integers, the IEEE comparison on floats
    (every comparison with a NaN is false). *)
Definition number_ltb_zero (v : number) : bool :=
  match v with
  | NInt z => z <? 0
  | NFloat f => SFltb f (S754_zero false)
  end.

(** The values found inside a payload.  The engine never writes below the
    top level of a payload, so nested containers are kept as trees. *)
Inductive value : Type :=
  | VNone
  | VBool (b : bool)
  | VNum (n : number)
  | VStr (s : string)
  | VList (items : list value)
  | VDict (items : list (string * value)).

(** [copy.deepcopy] on a value rebuilds it node by node. *)
Fixpoint deepcopy_value (v : value) : value :=
  match v with
  | VNone => VNone
  | VBool b => VBool b
  | VNum n => VNum n
  | VStr s => VStr s
  | VList items => VList (List.map deepcopy_value items)
  | VDict items =>
      VDict (List.map (fun kv => (fst kv, deepcopy_value (snd kv))) items)
  end.

(** A payload object: a [dict] from property names to values. *)
Abbreviation pydict := (gmap string value).

(** Locations of payload objects, and the store that holds them.  Objects
    are only ever added at the end, so a location is an index. *)
Abbreviation loc := nat.
Abbreviation store := (list pydict).

(** What a variable holding a payload contains: [None] or a reference to a
    [dict] object. *)
Inductive payload : Type :=
  | PyNone
  | PyDict (l : loc).

(** ** Exceptions *)

(** Arguments of [str.format]. *)
Inductive format_arg : Type :=
  | AStr (s : string)
  | AInt (z : Z)
  | ANum (n : number)
  | AStrList (l : list string).

(** The text of an exception.  [Format t args] stands for
    [t.format( *args )]; [Concat a b] for [a + b]. *)
Inductive message : Type :=
  | Lit (s : string)
  | Format (template : string) (args : list format_arg)
  | Concat (a b : message).

(** The exceptions the code raises: the coded exception of document
    errors, Python's own [RuntimeError], [ValueError] and [KeyError], and
    the version-gate error of [validate_version] (see below). *)
Inductive exception : Type :=
  | DSLParsingLogicException (err_code : Z) (msg : message)
  | RuntimeError (msg : message)
  | ValueError (msg : message)
  | KeyError (key : string)
  | VersionGateError (element : string) (min_version : Z * Z).

(** ** Computations: state and exceptions *)

Inductive outcome (A : Type) : Type :=
  | Returns (a : A)
  | Raises (e : exception)
  | Stuck.
Arguments Returns {A} a.
Arguments Raises {A} e.
Arguments Stuck {A}.

(** A computation runs on a store and leaves a store behind, whether it
    returns or raises.  [Stuck] marks a read through a reference to nothing,
    which no Python execution can perform. *)
Definition M (A : Type) : Type := store -> outcome A * store.

Definition ret {A} (a : A) : M A := fun st => (Returns a, st).

Definition raise {A} (e : exception) : M A := fun st => (Raises e, st).

Definition bind {A B} (m : M A) (k : A -> M B) : M B :=
  fun st =>
    match m st with
    | (Returns a, st') => k a st'
    | (Raises e, st') => (Raises e, st')
    | (Stuck, st') => (Stuck, st')
    end.

Declare Scope py_scope.
Delimit Scope py_scope with py.
Notation "x <- m ;; k" := (bind m (fun x => k))
  (at level 100, m at next level, right associativity) : py_scope.
Notation "m ;;; k" := (bind m (fun _ => k))
  (at level 100, right associativity) : py_scope.

(** A new [dict] object with the given content. *)
Definition alloc (d : pydict) : M loc :=
  fun st => (Returns (length st), (st ++ [d])%list).

(** The content of the object at [l]. *)
Definition read (l : loc) : M pydict :=
  fun st =>
    match st !! l with
    | Some d => (Returns d, st)
    | None => (Stuck, st)
    end.

(** [obj[key] = v] on the object at [l]. *)
Definition setitem (l : loc) (key : string) (v : value) : M unit :=
  fun st =>
    match st !! l with
    | Some d => (Returns tt, <[l := <[key := v]> d]> st)
    | None => (Stuck, st)
    end.

(** [copy.deepcopy(obj)] for a [dict] object: a new object whose values are
    copies. *)
Definition deepcopy (l : loc) : M loc :=
  (d <- read l ;;
   alloc (deepcopy_value <$> d))%py.

(** ** Schema elements and the retry-field validators *)

(** What a validator sees of its element: the key it was declared under and
    the raw value ([None] when the field is absent). *)
Record Element (T : Type) : Type := {
  name : string;
  initial_value : option T;
}.
Arguments name {T} _.
Arguments initial_value {T} _.

(** A document version such as [(1, 1)], compared as Python compares
    tuples. *)
Definition version_ltb (v w : Z * Z) : bool :=
  (fst v <? fst w) || ((fst v =? fst w) && (snd v <? snd w)).

(** Modelled from the spec: [Element.validate_version] belongs to the
    framework's base class, which is not among the sources.  The spec says
    that, when the gate is set, a declared retry field "requires version
    >= 1.1", and that a field declared below the minimum supported version
    is a version-gate error. *)
Definition validate_version {T} (self : Element T)
    (version min_version : Z * Z) : outcome unit :=
  if version_ltb version min_version
  then Raises (VersionGateError (name self) min_version)
  else Returns tt.

(** Statement sequencing for code that raises but touches no object. *)
Definition and_then {A B} (o : outcome A) (k : outcome B) : outcome B :=
  match o with
  | Returns _ => k
  | Raises e => Raises e
  | Stuck => Stuck
  end.

Module OperationMaxRetries.

Definition validate (self : Element Z) (version : Z * Z)
    (validate_version_flag : bool) : outcome unit :=
  match initial_value self with
  | None => Returns tt
  | Some value =>
      and_then
        (if validate_version_flag
         then validate_version self version (1, 1)
         else Returns tt)
        (if value <? -1
         then Raises (ValueError (Format
                "'{0}' value must be either -1 to specify unlimited retries or a non negative number but got {1}."
                [AStr (name self); AInt value]))
         else Returns tt)
  end.

End OperationMaxRetries.

Module OperationRetryInterval.

Definition validate (self : Element number) (version : Z * Z)
    (validate_version_flag : bool) : outcome unit :=
  match initial_value self with
  | None => Returns tt
  | Some value =>
      and_then
        (if validate_version_flag
         then validate_version self version (1, 1)
         else Returns tt)
        (if number_ltb_zero value
         then Raises (ValueError (Format
                "'{0}' value must be a non negative number but got {1}."
                [AStr (name self); ANum value]))
         else Returns tt)
  end.

End OperationRetryInterval.

(** ** Declarations, the plugin registry and resolved descriptors *)

(** The identifiers the engine takes from the [constants] module.  That
    module is not among the sources, so its values are parameters of the
    development. *)
Record constants_module : Type := {
  LOCAL_AGENT : string;
  SCRIPT_PLUGIN_NAME : string;
  SCRIPT_PATH_PROPERTY : string;
  SCRIPT_PLUGIN_RUN_TASK : string;
  SCRIPT_PLUGIN_EXECUTE_WORKFLOW_TASK : string;
}.

(** An entry of the plugin registry; only its [executor] key is read. *)
Record plugin : Type := {
  plugin_executor : option string;
}.

(** [operation_content]: the parsed declaration, a [dict].  A field is
    [None] when its key is absent; for the three optional fields, which are
    read with [.get], also when it holds [None]. *)
Record declaration : Type := {
  oc_implementation : option string;
  oc_mapping : option string;
  oc_inputs : option payload;
  oc_parameters : option payload;
  oc_executor : option string;
  oc_max_retries : option Z;
  oc_retry_interval : option number;
}.

(** The [dict] built by [_operation]. *)
Record operation : Type := {
  op_name : string;
  op_plugin : string;
  op_operation : string;
  op_executor : string;
  op_inputs : payload;
  op_has_intrinsic_functions : bool;
  op_max_retries : option Z;
  op_retry_interval : option number;
}.

(** The [dict] built by [_workflow_operation]. *)
Record workflow_operation : Type := {
  wf_plugin : string;
  wf_operation : string;
  wf_parameters : payload;
}.

Inductive descriptor : Type :=
  | Operation (o : operation)
  | Workflow (w : workflow_operation).

Definition _operation (name plugin_name operation_mapping : string)
    (operation_inputs : payload) (executor : string)
    (max_retries : option Z) (retry_interval : option number) : operation :=
  {| op_name := name;
     op_plugin := plugin_name;
     op_operation := operation_mapping;
     op_executor := executor;
     op_inputs := operation_inputs;
     op_has_intrinsic_functions := false;
     op_max_retries := max_retries;
     op_retry_interval := retry_interval |}.

Definition _workflow_operation (plugin_name workflow_mapping : string)
    (workflow_parameters : payload) : workflow_operation :=
  {| wf_plugin := plugin_name;
     wf_operation := workflow_mapping;
     wf_parameters := workflow_parameters |}.

(** ** Python expressions used by the engine *)

(** [operation_content[key]] for the mapping string. *)
Definition getitem_mapping (operation_content : declaration) (key : string)
    : M string :=
  let field :=
    if String.eqb key "implementation" then oc_implementation operation_content
    else if String.eqb key "mapping" then oc_mapping operation_content
    else None in
  match field with
  | Some v => ret v
  | None => raise (KeyError key)
  end.

(** [operation_content[key]] for the payload. *)
Definition getitem_payload (operation_content : declaration) (key : string)
    : M payload :=
  let field :=
    if String.eqb key "inputs" then oc_inputs operation_content
    else if String.eqb key "parameters" then oc_parameters operation_content
    else None in
  match field with
  | Some v => ret v
  | None => raise (KeyError key)
  end.

(** [x or default] where [x] is a string or [None]. *)
Definition str_or (x : option string) (default : string) : string :=
  match x with
  | Some s => if Str.truthy s then s else default
  | None => default
  end.

(** [plugins.keys()] *)
Definition keys (plugins : gmap string plugin) : list string :=
  (map_to_list plugins).*1.

(** [plugins[key]] *)
Definition getitem_plugin (plugins : gmap string plugin) (key : string)
    : M plugin :=
  match plugins !! key with
  | Some p => ret p
  | None => raise (KeyError key)
  end.

(** [p['executor']] *)
Definition getitem_executor (p : plugin) : M string :=
  match plugin_executor p with
  | Some e => ret e
  | None => raise (KeyError "executor")
  end.

(** [operation_payload or {}]: the payload itself when it is a non-empty
    [dict], a new empty [dict] otherwise. *)
Definition or_empty_dict (p : payload) : M loc :=
  match p with
  | PyNone => alloc ∅
  | PyDict l =>
      (d <- read l ;;
       if Nat.eqb (size d) 0 then alloc ∅ else ret l)%py
  end.

(** [key in obj] for a [dict] object. *)
Definition contains (l : loc) (key : string) : M bool :=
  (d <- read l ;;
   ret (bool_decide (is_Some (d !! key))))%py.

(** ['workflow' if is_workflows else 'operation'] *)
Definition kind_name (is_workflows : bool) : string :=
  if is_workflows then "workflow" else "operation".

(** ** The resolution engine *)

Section Engine.

Variable constants : constants_module.

(** The resource-existence probe [uri_exists], an external predicate. *)
Variable uri_exists : string -> bool.

Definition _resource_exists (resource_base resource_name : string) : bool :=
  uri_exists (resource_base ++ "/" ++ resource_name).

(** The plugin names [p] kept by the comprehension
    [[p for p in plugins.keys() if operation_mapping.startswith('{0}.'.format(p))]]. *)
Definition candidates (plugins : gmap string plugin)
    (operation_mapping : string) : list string :=
  List.filter (fun p => Str.startswith operation_mapping (p ++ "."))
              (keys plugins).

(** The body of the branch
    [elif resource_base and _resource_exists(resource_base, operation_mapping)]
    of [process_operation], taken when no plugin matches. *)
Definition script_resource_branch (plugins : gmap string plugin)
    (operation_name operation_mapping : string)
    (operation_payload : payload) (operation_executor : string)
    (operation_max_retries : option Z)
    (operation_retry_interval : option number)
    (is_workflows : bool) : M descriptor :=
  (source <- or_empty_dict operation_payload ;;
   operation_payload <- deepcopy source ;;
   collision <- contains operation_payload constants.(SCRIPT_PATH_PROPERTY) ;;
   if collision : bool
   then raise (DSLParsingLogicException 60 (Format
          "Cannot define '{0}' property in '{1}' for {2} '{3}'"
          [AStr constants.(SCRIPT_PATH_PROPERTY);
           AStr operation_mapping;
           AStr (kind_name is_workflows);
           AStr operation_name]))
   else
   let script_path := operation_mapping in
   let operation_mapping :=
     if is_workflows
     then constants.(SCRIPT_PLUGIN_EXECUTE_WORKFLOW_TASK)
     else constants.(SCRIPT_PLUGIN_RUN_TASK) in
   setitem operation_payload constants.(SCRIPT_PATH_PROPERTY)
     (if is_workflows
      then VDict [("default", VStr script_path);
                  ("description",
                   VStr "Workflow script executed by the script plugin")]
      else VStr script_path) ;;;
   if negb (bool_decide (is_Some (plugins !! constants.(SCRIPT_PLUGIN_NAME))))
   then raise (DSLParsingLogicException 61 (Format
          "Script plugin is not defined but it is required for mapping '{0}' of {1} '{2}'"
          [AStr operation_mapping;
           AStr (kind_name is_workflows);
           AStr operation_name]))
   else
   if is_workflows
   then ret (Workflow (_workflow_operation
               constants.(SCRIPT_PLUGIN_NAME)
               operation_mapping
               (PyDict operation_payload)))
   else
     operation_executor <-
       (if negb (Str.truthy operation_executor)
        then (p <- getitem_plugin plugins constants.(SCRIPT_PLUGIN_NAME) ;;
              getitem_executor p)
        else ret operation_executor) ;;
     ret (Operation (_operation
            operation_name
            constants.(SCRIPT_PLUGIN_NAME)
            operation_mapping
            (PyDict operation_payload)
            operation_executor
            operation_max_retries
            operation_retry_interval)))%py.

Definition process_operation (plugins : gmap string plugin)
    (operation_name : string) (operation_content : declaration)
    (error_code : Z) (partial_error_message : string)
    (resource_base : option string) (is_workflows : bool) : M descriptor :=
  (let payload_field_name := if is_workflows then "parameters" else "inputs" in
   let mapping_field_name := if is_workflows then "mapping" else "implementation" in
   operation_mapping <- getitem_mapping operation_content mapping_field_name ;;
   operation_payload <- getitem_payload operation_content payload_field_name ;;
   let operation_executor :=
     str_or (oc_executor operation_content) constants.(LOCAL_AGENT) in
   let operation_max_retries := oc_max_retries operation_content in
   let operation_retry_interval := oc_retry_interval operation_content in
   if negb (Str.truthy operation_mapping)
   then
     if is_workflows
     then raise (RuntimeError (Lit
            "Illegal state. workflow mapping should alwaysbe defined (enforced by schema validation)"))
     else
       empty <- alloc ∅ ;;
       ret (Operation (_operation
              operation_name "" "" (PyDict empty)
              constants.(LOCAL_AGENT) None None))
   else
   let candidate_plugins := candidates plugins operation_mapping in
   match candidate_plugins with
   | _ :: _ :: _ =>
       raise (DSLParsingLogicException 91 (Format
         "Ambiguous operation mapping. [operation={0}, plugins={1}]"
         [AStr operation_name; AStrList candidate_plugins]))
   | [plugin_name] =>
       let mapping :=
         Str.slice_from (Str.len plugin_name + 1) operation_mapping in
       if is_workflows
       then ret (Workflow (_workflow_operation
                   plugin_name mapping operation_payload))
       else
         operation_executor <-
           (if negb (Str.truthy operation_executor)
            then (p <- getitem_plugin plugins plugin_name ;;
                  ret (str_or (plugin_executor p) constants.(LOCAL_AGENT)))
            else ret operation_executor) ;;
         ret (Operation (_operation
                operation_name plugin_name mapping operation_payload
                operation_executor
                operation_max_retries
                operation_retry_interval))
   | [] =>
       if match resource_base with
          | Some resource_base =>
              Str.truthy resource_base
              && _resource_exists resource_base operation_mapping
          | None => false
          end
       then script_resource_branch plugins operation_name operation_mapping
              operation_payload operation_executor
              operation_max_retries operation_retry_interval is_workflows
       else
         let base_error_message :=
           Format
             "Could not extract plugin from {2} mapping '{0}', which is declared for {2} '{1}'. "
             [AStr operation_mapping; AStr operation_name;
              AStr (kind_name is_workflows)] in
         let error_message :=
           Concat base_error_message (Lit partial_error_message) in
         raise (DSLParsingLogicException error_code error_message)
   end)%py.

End Engine.

(** * The vocabulary of the specification *)

(** The specification's reading of the match: the mapping string starts
    with the segment [P] followed by a dot. *)
Definition dot_prefix (P mapping : string) : Prop :=
  exists rest, mapping = P ++ "." ++ rest.

(** Field selection: the mapping is read from [mapping] for workflows and
    from [implementation] otherwise; the payload from [parameters] for
    workflows and from [inputs] otherwise. *)
Definition mapping_field (is_workflows : bool) (oc : declaration)
    : option string :=
  if is_workflows then oc_mapping oc else oc_implementation oc.

Definition payload_field (is_workflows : bool) (oc : declaration)
    : option payload :=
  if is_workflows then oc_parameters oc else oc_inputs oc.

(** The content a payload stands for: [None] counts as the empty
    mapping. *)
Definition payload_content (st : store) (p : payload) (d : pydict) : Prop :=
  match p with
  | PyNone => d = ∅
  | PyDict l => st !! l = Some d
  end.

(** The value stored under the reserved key: the script path itself for an
    operation, a parameter record for a workflow. *)
Definition script_path_entry (is_workflows : bool) (script_path : string)
    : value :=
  if is_workflows
  then VDict [("default", VStr script_path);
              ("description",
               VStr "Workflow script executed by the script plugin")]
  else VStr script_path.

(** The payload, plugin and target of a descriptor of either kind. *)
Definition descriptor_payload (d : descriptor) : payload :=
  match d with
  | Operation o => op_inputs o
  | Workflow w => wf_parameters w
  end.

Definition descriptor_plugin (d : descriptor) : string :=
  match d with
  | Operation o => op_plugin o
  | Workflow w => wf_plugin w
  end.

Definition descriptor_operation (d : descriptor) : string :=
  match d with
  | Operation o => op_operation o
  | Workflow w => wf_operation w
  end.

(** A number below zero: a negative integer, or a float that is negative
    infinity or a negative finite value (a NaN and the zeros are not). *)
Definition number_negative (v : number) : Prop :=
  match v with
  | NInt z => z < 0
  | NFloat (S754_infinity true) => True
  | NFloat (S754_finite true _ _) => True
  | NFloat _ => False
  end.

(** The texts of the two bound errors. *)
Definition max_retries_message (name : string) (v : Z) : message :=
  Format
    "'{0}' value must be either -1 to specify unlimited retries or a non negative number but got {1}."
    [AStr name; AInt v].

Definition retry_interval_message (name : string) (v : number) : message :=
  Format "'{0}' value must be a non negative number but got {1}."
    [AStr name; ANum v].

Section Vocabulary.

Variable constants : constants_module.
Variable uri_exists : string -> bool.

(** A resource base was supplied and the mapping names a resource under
    it. *)
Definition resource_available (resource_base : option string)
    (mapping : string) : Prop :=
  exists rb, resource_base = Some rb /\ rb <> ""
             /\ uri_exists (rb ++ "/" ++ mapping) = true.

Definition resource_found (resource_base : option string)
    (mapping : string) : bool :=
  match resource_base with
  | Some resource_base =>
      Str.truthy resource_base
      && _resource_exists uri_exists resource_base mapping
  | None => false
  end.

(** The descriptor the script branch returns for the copy at [l]. *)
Definition script_descriptor (operation_name operation_executor : string)
    (operation_max_retries : option Z)
    (operation_retry_interval : option number)
    (is_workflows : bool) (l : loc) : descriptor :=
  if is_workflows
  then Workflow (_workflow_operation
         constants.(SCRIPT_PLUGIN_NAME)
         constants.(SCRIPT_PLUGIN_EXECUTE_WORKFLOW_TASK)
         (PyDict l))
  else Operation (_operation
         operation_name
         constants.(SCRIPT_PLUGIN_NAME)
         constants.(SCRIPT_PLUGIN_RUN_TASK)
         (PyDict l)
         operation_executor
         operation_max_retries
         operation_retry_interval).

(** How the script branch ends once the script plugin is known to be
    registered.  The registry entry is consulted for an executor only
    when the executor found so far is empty. *)
Definition script_branch_outcome (plugins : gmap string plugin)
    (operation_name operation_executor : string)
    (operation_max_retries : option Z)
    (operation_retry_interval : option number)
    (is_workflows : bool) (l : loc) : outcome descriptor :=
  if is_workflows || Str.truthy operation_executor
  then Returns (script_descriptor operation_name operation_executor
                  operation_max_retries operation_retry_interval
                  is_workflows l)
  else match plugins !! constants.(SCRIPT_PLUGIN_NAME) with
       | Some pl =>
           match plugin_executor pl with
           | Some e =>
               Returns (script_descriptor operation_name e
                          operation_max_retries operation_retry_interval
                          is_workflows l)
           | None => Raises (KeyError "executor")
           end
       | None => Raises (KeyError constants.(SCRIPT_PLUGIN_NAME))
       end.

(** What the script branch leaves behind on a payload with content [d],
    when [pre] holds the objects created before the copy: the copy comes
    last, and the reserved key is written to it unless the payload
    declares that key. *)
Definition script_branch_result (plugins : gmap string plugin)
    (operation_name m exec : string) (mr : option Z) (ri : option number)
    (is_workflows : bool) (st pre : store) (d : pydict)
    : outcome descriptor * store :=
  if bool_decide (is_Some (d !! constants.(SCRIPT_PATH_PROPERTY)))
  then (Raises (DSLParsingLogicException 60 (Format
          "Cannot define '{0}' property in '{1}' for {2} '{3}'"
          [AStr constants.(SCRIPT_PATH_PROPERTY); AStr m;
           AStr (kind_name is_workflows); AStr operation_name])),
        (st ++ pre ++ [d])%list)
  else
    let st' :=
      (st ++ pre ++
       [<[constants.(SCRIPT_PATH_PROPERTY)
          := script_path_entry is_workflows m]> d])%list in
    if bool_decide (is_Some (plugins !! constants.(SCRIPT_PLUGIN_NAME)))
    then (script_branch_outcome plugins operation_name exec mr ri
            is_workflows (length (st ++ pre)%list), st')
    else (Raises (DSLParsingLogicException 61 (Format
            "Script plugin is not defined but it is required for mapping '{0}' of {1} '{2}'"
            [AStr (if is_workflows
                   then constants.(SCRIPT_PLUGIN_EXECUTE_WORKFLOW_TASK)
                   else constants.(SCRIPT_PLUGIN_RUN_TASK));
             AStr (kind_name is_workflows); AStr operation_name])),
          st').

(** The executor the plugin branch settles on, as the code computes it:
    the plugin's own default is consulted only when the executor found so
    far is empty. *)
Definition plugin_branch_executor (plugins : gmap string plugin)
    (oc : declaration) (P : string) : string :=
  let operation_executor :=
    str_or (oc_executor oc) constants.(LOCAL_AGENT) in
  if Str.truthy operation_executor
  then operation_executor
  else match plugins !! P with
       | Some p => str_or (plugin_executor p) constants.(LOCAL_AGENT)
       | None => operation_executor
       end.

End Vocabulary.

(** The fallback is reached: the mapping is not empty, no registered plugin
    matches it, and it names a resource under the supplied base. *)
Definition fallback_reached (uri_exists : string -> bool)
    (plugins : gmap string plugin) (resource_base : option string)
    (m : string) : Prop :=
  m <> ""
  /\ (forall P, is_Some (plugins !! P) -> ~ dot_prefix P m)
  /\ resource_available uri_exists resource_base m.

(** ** Sample inputs *)

(** One choice of the reserved identifiers, for running the engine on
    concrete inputs; the theorems are stated for every choice. *)
Definition sample_constants : constants_module :=
  {| LOCAL_AGENT := "local_agent";
     SCRIPT_PLUGIN_NAME := "script";
     SCRIPT_PATH_PROPERTY := "script_path";
     SCRIPT_PLUGIN_RUN_TASK := "script_runner.tasks.run";
     SCRIPT_PLUGIN_EXECUTE_WORKFLOW_TASK :=
       "script_runner.tasks.execute_workflow" |}.

(** A resource base under which only [scripts/install.sh] exists. *)
Definition sample_uri_exists (uri : string) : bool :=
  String.eqb uri "blueprint/scripts/install.sh".

(** The registry [{"p1": {"executor": "local"}, "p2": {}}]. *)
Definition sample_plugins : gmap string plugin :=
  <["p1" := {| plugin_executor := Some "local" |}]>
    (<["p2" := {| plugin_executor := None |}]> ∅).

(** The same registry with the script plugin added. *)
Definition sample_plugins_with_script : gmap string plugin :=
  <["script" := {| plugin_executor := None |}]> sample_plugins.

(** An operation declaration [{'implementation': m, 'inputs': p}] with the
    optional fields left out. *)
Definition operation_declaration (m : string) (p : payload) : declaration :=
  {| oc_implementation := Some m;
     oc_mapping := None;
     oc_inputs := Some p;
     oc_parameters := None;
     oc_executor := None;
     oc_max_retries := None;
     oc_retry_interval := None |}.

(** A workflow declaration [{'mapping': m, 'parameters': p}]. *)
Definition workflow_declaration (m : string) (p : payload) : declaration :=
  {| oc_implementation := None;
     oc_mapping := Some m;
     oc_inputs := None;
     oc_parameters := Some p;
     oc_executor := None;
     oc_max_retries := None;
     oc_retry_interval := None |}.

(** * The rest of the module *)

(** ** The other schema elements *)

Module OperationImplementation.

(** [parse]: the declared string, [''] when none is declared. *)
Definition parse (self : Element string) : string :=
  match initial_value self with
  | Some v => v
  | None => ""
  end.

End OperationImplementation.

Module NodeTemplateOperationInputs.

(** [parse]: [self.initial_value or {}]. *)
Definition parse (self : Element loc) : M loc :=
  or_empty_dict match initial_value self with
                | Some l => PyDict l
                | None => PyNone
                end.

End NodeTemplateOperationInputs.

Module OperationExecutor.

Section Validate.

Variable constants : constants_module.

(** [valid_executors = (constants.LOCAL_AGENT,)] *)
Definition valid_executors : list string := [constants.(LOCAL_AGENT)].

(** [validate].  The names [self.ancestor(Interface).name] and
    [self.ancestor(Operation).name] come from the framework's ancestor
    lookup, which is not among the sources: they are arguments here.  The
    tuple [valid_executors] is handed to [format] as the list of its
    items. *)
Definition validate (self : Element string)
    (interface_name operation_name : string) : outcome unit :=
  match initial_value self with
  | None => Returns tt
  | Some value =>
      if negb (existsb (String.eqb value) valid_executors)
      then
        let full_operation_name := interface_name ++ "." ++ operation_name in
        Raises (DSLParsingLogicException 28 (Format
          "Operation '{0}' has an illegal executor value '{1}'. valid values are {2}"
          [AStr full_operation_name; AStr value; AStrList valid_executors]))
      else Returns tt
  end.

End Validate.

End OperationExecutor.

Module Operation.

Section Parse.

Variable constants : constants_module.

(** The raw form of a full (record) declaration and the framework's
    [build_dict_result], neither of which is among the sources. *)
Variable raw_record : Type.
Variable build_dict_result : raw_record -> M declaration.

(** [Operation.parse]: a bare string is normalised to a record with the
    default executor, a new empty [inputs] and no retry fields; anything
    else is left to [build_dict_result]. *)
Definition parse (initial_value : string + raw_record) : M declaration :=
  match initial_value with
  | inl implementation =>
      (inputs <- alloc ∅ ;;
       ret {| oc_implementation := Some implementation;
              oc_mapping := None;
              oc_inputs := Some (PyDict inputs);
              oc_parameters := None;
              oc_executor := Some constants.(LOCAL_AGENT);
              oc_max_retries := None;
              oc_retry_interval := None |})%py
  | inr record => build_dict_result record
  end.

End Parse.

End Operation.

(** ** Resolving a whole interface *)

(** A list comprehension [[f(x) for x in items]] whose body may raise. *)
Fixpoint comprehension {A B} (f : A -> M B) (items : list A) : M (list B) :=
  match items with
  | [] => ret []
  | x :: rest =>
      (y <- f x ;;
       ys <- comprehension f rest ;;
       ret (y :: ys))%py
  end.

(** [process_interface_operations]: the interface is given by its
    [items()], in the order the [dict] yields them. *)
Definition process_interface_operations
    (constants : constants_module) (uri_exists : string -> bool)
    (interface : list (string * declaration))
    (plugins : gmap string plugin) (error_code : Z)
    (partial_error_message : string) (resource_base : option string)
    : M (list descriptor) :=
  comprehension
    (fun item =>
       let operation_name := fst item in
       let operation_content := snd item in
       process_operation constants uri_exists plugins operation_name
         operation_content error_code partial_error_message resource_base
         false)
    interface.

(** ** The resolution paths *)

(** How a call of [process_operation] on the store [st] can end, path by
    path. *)
Inductive run_case (constants : constants_module)
    (uri_exists : string -> bool) (plugins : gmap string plugin)
    (operation_name : string) (oc : declaration) (error_code : Z)
    (partial_error_message : string) (resource_base : option string)
    (is_workflows : bool) (st : store)
    : outcome descriptor * store -> Prop :=
  | case_no_mapping :
      mapping_field is_workflows oc = None ->
      run_case constants uri_exists plugins operation_name oc error_code
        partial_error_message resource_base is_workflows st
        (Raises (KeyError (if is_workflows then "mapping"
                           else "implementation")), st)
  | case_no_payload (m : string) :
      mapping_field is_workflows oc = Some m ->
      payload_field is_workflows oc = None ->
      run_case constants uri_exists plugins operation_name oc error_code
        partial_error_message resource_base is_workflows st
        (Raises (KeyError (if is_workflows then "parameters"
                           else "inputs")), st)
  | case_empty_workflow (p : payload) :
      is_workflows = true ->
      mapping_field is_workflows oc = Some "" ->
      payload_field is_workflows oc = Some p ->
      run_case constants uri_exists plugins operation_name oc error_code
        partial_error_message resource_base is_workflows st
        (Raises (RuntimeError (Lit
           "Illegal state. workflow mapping should alwaysbe defined (enforced by schema validation)")),
         st)
  | case_empty_operation (p : payload) :
      is_workflows = false ->
      mapping_field is_workflows oc = Some "" ->
      payload_field is_workflows oc = Some p ->
      run_case constants uri_exists plugins operation_name oc error_code
        partial_error_message resource_base is_workflows st
        (Returns (Operation (_operation operation_name "" ""
                    (PyDict (length st)) constants.(LOCAL_AGENT)
                    None None)),
         (st ++ [∅])%list)
  | case_ambiguous (m : string) (p : payload) (a b : string)
      (rest : list string) :
      mapping_field is_workflows oc = Some m ->
      payload_field is_workflows oc = Some p ->
      candidates plugins m = a :: b :: rest ->
      run_case constants uri_exists plugins operation_name oc error_code
        partial_error_message resource_base is_workflows st
        (Raises (DSLParsingLogicException 91 (Format
           "Ambiguous operation mapping. [operation={0}, plugins={1}]"
           [AStr operation_name; AStrList (candidates plugins m)])), st)
  | case_plugin (m : string) (p : payload) (P : string) :
      mapping_field is_workflows oc = Some m ->
      payload_field is_workflows oc = Some p ->
      candidates plugins m = [P] ->
      run_case constants uri_exists plugins operation_name oc error_code
        partial_error_message resource_base is_workflows st
        (Returns
           (if is_workflows
            then Workflow (_workflow_operation P
                   (Str.slice_from (Str.len P + 1) m) p)
            else Operation (_operation operation_name P
                   (Str.slice_from (Str.len P + 1) m) p
                   (plugin_branch_executor constants plugins oc P)
                   (oc_max_retries oc) (oc_retry_interval oc))),
         st)
  | case_unresolved (m : string) (p : payload) :
      mapping_field is_workflows oc = Some m ->
      payload_field is_workflows oc = Some p ->
      m <> "" ->
      candidates plugins m = [] ->
      resource_found uri_exists resource_base m = false ->
      run_case constants uri_exists plugins operation_name oc error_code
        partial_error_message resource_base is_workflows st
        (Raises (DSLParsingLogicException error_code
           (Concat
              (Format
                 "Could not extract plugin from {2} mapping '{0}', which is declared for {2} '{1}'. "
                 [AStr m; AStr operation_name;
                  AStr (kind_name is_workflows)])
              (Lit partial_error_message))), st)
  | case_dangling (m : string) (l : loc) :
      mapping_field is_workflows oc = Some m ->
      payload_field is_workflows oc = Some (PyDict l) ->
      fallback_reached uri_exists plugins resource_base m ->
      st !! l = None ->
      run_case constants uri_exists plugins operation_name oc error_code
        partial_error_message resource_base is_workflows st
        (Stuck, st)
  | case_script (m : string) (p : payload) (d : pydict) (pre : store) :
      mapping_field is_workflows oc = Some m ->
      payload_field is_workflows oc = Some p ->
      fallback_reached uri_exists plugins resource_base m ->
      payload_content st p d ->
      pre = [] \/ pre = [∅] ->
      run_case constants uri_exists plugins operation_name oc error_code
        partial_error_message resource_base is_workflows st
        (script_branch_result constants plugins operation_name m
           (str_or (oc_executor oc) constants.(LOCAL_AGENT))
           (oc_max_retries oc) (oc_retry_interval oc) is_workflows
           st pre d).

(** * Lemmas *)

(** ** Strings *)

Lemma append_nil_l (s : string) : "" ++ s = s.
Proof. reflexivity. Qed.

Lemma append_cons (c : ascii) (s t : string) :
  String c s ++ t = String c (s ++ t).
Proof. reflexivity. Qed.

Lemma startswith_nil (s : string) : Str.startswith s "" = true.
Proof. reflexivity. Qed.

Lemma startswith_cons (d c : ascii) (s p : string) :
  Str.startswith (String d s) (String c p)
  = Ascii.eqb c d && Str.startswith s p.
Proof. reflexivity. Qed.

Lemma startswith_empty (c : ascii) (p : string) :
  Str.startswith "" (String c p) = false.
Proof. reflexivity. Qed.

Lemma startswith_dot_prefix (mapping P : string) :
  Str.startswith mapping (P ++ ".") = true <-> dot_prefix P mapping.
Proof.
  revert mapping. induction P as [|c P IH]; intros mapping.
  - unfold dot_prefix. rewrite append_nil_l.
    destruct mapping as [|d m].
    + rewrite startswith_empty.
      split; [discriminate | intros [rest Hr]; discriminate].
    + rewrite startswith_cons, startswith_nil, andb_true_r. split.
      * intros H. apply Ascii.eqb_eq in H. subst d. by exists m.
      * intros [rest Hr]. injection Hr as <- _. apply Ascii.eqb_refl.
  - rewrite append_cons. destruct mapping as [|d m].
    + rewrite startswith_empty.
      split; [discriminate | intros [rest Hr]; discriminate].
    + rewrite startswith_cons, andb_true_iff, Ascii.eqb_eq, IH.
      unfold dot_prefix. split.
      * intros [-> [rest ->]]. by exists rest.
      * intros [rest Hr]. rewrite append_cons in Hr.
        injection Hr as <- ->. eauto.
Qed.

Lemma slice_from_dot_prefix (P rest : string) :
  Str.slice_from (Str.len P + 1) (P ++ "." ++ rest) = rest.
Proof.
  induction P as [|c P IH]; [done|].
  rewrite append_cons. exact IH.
Qed.

Lemma dot_prefix_truthy (P mapping : string) :
  dot_prefix P mapping -> Str.truthy mapping = true.
Proof. intros [rest ->]. by destruct P. Qed.

Lemma truthy_nonempty (s : string) : Str.truthy s = true <-> s <> "".
Proof. destruct s; simpl; split; congruence. Qed.

Lemma str_or_truthy (x : option string) (default : string) :
  Str.truthy default = true -> Str.truthy (str_or x default) = true.
Proof.
  intros H. destruct x as [s|]; simpl; [|done].
  by destruct (Str.truthy s) eqn:E.
Qed.

(** ** Numbers *)

Lemma number_ltb_zero_negative (v : number) :
  number_ltb_zero v = true <-> number_negative v.
Proof.
  destruct v as [z | f]; simpl.
  - apply Z.ltb_lt.
  - destruct f as [[|] | [|] | | [|] m e]; simpl; unfold SFltb; simpl;
      split; (done || discriminate).
Qed.

Lemma number_ltb_zero_not_negative (v : number) :
  number_ltb_zero v = false <-> ~ number_negative v.
Proof.
  rewrite <- number_ltb_zero_negative. destruct (number_ltb_zero v);
    split; (done || congruence).
Qed.

(** ** The candidate list *)

Lemma elem_of_keys (plugins : gmap string plugin) (P : string) :
  P ∈ keys plugins <-> is_Some (plugins !! P).
Proof.
  unfold keys. rewrite list_elem_of_fmap. split.
  - intros [[k p] [-> H]]. apply elem_of_map_to_list in H. by exists p.
  - intros [p H]. exists (P, p). split; [done|]. by apply elem_of_map_to_list.
Qed.

Lemma elem_of_candidates (plugins : gmap string plugin) (mapping P : string) :
  P ∈ candidates plugins mapping
  <-> is_Some (plugins !! P) /\ dot_prefix P mapping.
Proof.
  unfold candidates.
  rewrite list_elem_of_In, filter_In, <- list_elem_of_In, elem_of_keys.
  by rewrite startswith_dot_prefix.
Qed.

Lemma NoDup_candidates (plugins : gmap string plugin) (mapping : string) :
  NoDup (candidates plugins mapping).
Proof.
  unfold candidates, keys.
  pose proof (NoDup_fst_map_to_list plugins) as H.
  induction H as [|k ks Hk Hks IH]; simpl; [constructor|].
  destruct (Str.startswith mapping (k ++ ".")); [|exact IH].
  constructor; [|exact IH].
  intros Hin. apply Hk.
  apply list_elem_of_In in Hin. apply filter_In in Hin as [Hin _].
  by apply list_elem_of_In.
Qed.

(** No registered plugin matches: the list is empty. *)
Lemma candidates_nil (plugins : gmap string plugin) (mapping : string) :
  candidates plugins mapping = []
  <-> (forall P, is_Some (plugins !! P) -> ~ dot_prefix P mapping).
Proof.
  split.
  - intros Hnil P HP Hd.
    assert (P ∈ candidates plugins mapping) as Hin
      by (apply elem_of_candidates; done).
    rewrite Hnil in Hin. by apply not_elem_of_nil in Hin.
  - intros Hno. destruct (candidates plugins mapping) as [|P l] eqn:E; [done|].
    assert (P ∈ candidates plugins mapping) as Hin
      by (rewrite E; apply list_elem_of_here).
    apply elem_of_candidates in Hin as [HP Hd]. by destruct (Hno P HP).
Qed.

(** Exactly one registered plugin matches: the list is that plugin alone. *)
Lemma candidates_singleton (plugins : gmap string plugin) (mapping P : string) :
  candidates plugins mapping = [P]
  <-> (is_Some (plugins !! P) /\ dot_prefix P mapping
       /\ forall Q, is_Some (plugins !! Q) -> dot_prefix Q mapping -> Q = P).
Proof.
  split.
  - intros E. split_and!.
    + apply (elem_of_candidates plugins mapping P). rewrite E. apply list_elem_of_here.
    + apply (elem_of_candidates plugins mapping P). rewrite E. apply list_elem_of_here.
    + intros Q HQ Hd.
      assert (Q ∈ candidates plugins mapping) as Hin
        by (apply elem_of_candidates; done).
      rewrite E in Hin. by apply list_elem_of_singleton in Hin.
  - intros (HP & Hd & Huniq).
    pose proof (NoDup_candidates plugins mapping) as Hnd.
    assert (forall Q, Q ∈ candidates plugins mapping -> Q = P) as Hall.
    { intros Q HQ. apply elem_of_candidates in HQ as [? ?]. by apply Huniq. }
    assert (P ∈ candidates plugins mapping) as Hin
      by (apply elem_of_candidates; done).
    destruct (candidates plugins mapping) as [|a [|b l]].
    + by apply not_elem_of_nil in Hin.
    + f_equal. apply Hall, list_elem_of_here.
    + exfalso. apply NoDup_cons in Hnd as [Hnotin _]. apply Hnotin.
      rewrite (Hall a), (Hall b).
      * apply list_elem_of_here.
      * apply list_elem_of_further, list_elem_of_here.
      * apply list_elem_of_here.
Qed.


(** ** Running the primitives *)

Lemma deepcopy_value_id : forall v : value, deepcopy_value v = v.
Proof.
  fix IH 1. intros [| b | n | s | items | items]; simpl; try reflexivity.
  - f_equal. induction items as [|x xs IHxs]; simpl; [done|].
    by rewrite IH, IHxs.
  - f_equal. induction items as [|[k x] xs IHxs]; simpl; [done|].
    by rewrite IH, IHxs.
Qed.

Lemma fmap_deepcopy_value (d : pydict) : deepcopy_value <$> d = d.
Proof.
  apply map_eq. intros k. rewrite lookup_fmap.
  destruct (d !! k) as [v|]; simpl; [|done]. by rewrite deepcopy_value_id.
Qed.

Lemma bind_returns {A B} (m : M A) (k : A -> M B) (st st' : store) (a : A) :
  m st = (Returns a, st') -> bind m k st = k a st'.
Proof. intros H. unfold bind. by rewrite H. Qed.

Lemma lookup_snoc (st : store) (d : pydict) :
  (st ++ [d])%list !! length st = Some d.
Proof. by rewrite lookup_app_r, Nat.sub_diag by lia. Qed.

Lemma insert_snoc (st : store) (d d' : pydict) :
  <[length st := d']> (st ++ [d])%list = (st ++ [d'])%list.
Proof.
  rewrite insert_app_r_alt by lia. by rewrite Nat.sub_diag.
Qed.

Lemma run_read (st : store) (l : loc) (d : pydict) :
  st !! l = Some d -> read l st = (Returns d, st).
Proof. intros H. unfold read. by rewrite H. Qed.

Lemma run_deepcopy (st : store) (l : loc) (d : pydict) :
  st !! l = Some d ->
  deepcopy l st = (Returns (length st), (st ++ [d])%list).
Proof.
  intros H. unfold deepcopy. rewrite (bind_returns _ _ _ _ _ (run_read _ _ _ H)).
  unfold alloc. by rewrite fmap_deepcopy_value.
Qed.

Lemma run_contains (st : store) (l : loc) (d : pydict) (key : string) :
  st !! l = Some d ->
  contains l key st = (Returns (bool_decide (is_Some (d !! key))), st).
Proof.
  intros H. unfold contains.
  by rewrite (bind_returns _ _ _ _ _ (run_read _ _ _ H)).
Qed.

Lemma run_setitem (st : store) (l : loc) (d : pydict) (key : string) (v : value) :
  st !! l = Some d ->
  setitem l key v st = (Returns tt, <[l := <[key := v]> d]> st).
Proof. intros H. unfold setitem. by rewrite H. Qed.

(** [operation_payload or {}] yields an object with the payload's content,
    after adding at most a new empty object. *)
Lemma run_or_empty_dict (st : store) (p : payload) (d : pydict) :
  payload_content st p d ->
  exists (pre : store) (src : loc),
    or_empty_dict p st = (Returns src, (st ++ pre)%list)
    /\ (st ++ pre)%list !! src = Some d.
Proof.
  intros Hd. destruct p as [|l]; simpl in Hd.
  - subst d. exists [∅], (length st). split; [done|]. apply lookup_snoc.
  - unfold or_empty_dict.
    rewrite (bind_returns _ _ _ _ _ (run_read _ _ _ Hd)).
    destruct (Nat.eqb (size d) 0) eqn:E.
    + apply Nat.eqb_eq, map_size_empty_iff in E. subst d.
      exists [∅], (length st). split; [done|]. apply lookup_snoc.
    + exists [], l. rewrite app_nil_r. done.
Qed.

Lemma run_getitem_mapping (is_workflows : bool) (oc : declaration)
    (m : string) (st : store) :
  mapping_field is_workflows oc = Some m ->
  getitem_mapping oc (if is_workflows then "mapping" else "implementation") st
  = (Returns m, st).
Proof.
  intros H. unfold getitem_mapping. destruct is_workflows; simpl in *;
    by rewrite H.
Qed.

Lemma run_getitem_payload (is_workflows : bool) (oc : declaration)
    (p : payload) (st : store) :
  payload_field is_workflows oc = Some p ->
  getitem_payload oc (if is_workflows then "parameters" else "inputs") st
  = (Returns p, st).
Proof.
  intros H. unfold getitem_payload. destruct is_workflows; simpl in *;
    by rewrite H.
Qed.

(** ** Running the engine, branch by branch *)

Section EngineFacts.

Variable constants : constants_module.
Variable uri_exists : string -> bool.

Lemma resource_found_available (resource_base : option string)
    (mapping : string) :
  resource_found uri_exists resource_base mapping = true
  <-> resource_available uri_exists resource_base mapping.
Proof.
  unfold resource_found, resource_available, _resource_exists.
  destruct resource_base as [rb|].
  - rewrite andb_true_iff, truthy_nonempty. split.
    + intros [? ?]. by exists rb.
    + intros (rb' & [= <-] & ? & ?). done.
  - split; [discriminate | intros (rb' & [=] & _)].
Qed.

(** The script branch works on a copy placed after the objects that
    exist; at most one empty object is created before it. *)
Lemma run_script_resource_branch (plugins : gmap string plugin)
    (operation_name m : string) (p : payload) (exec : string)
    (mr : option Z) (ri : option number) (is_workflows : bool)
    (st : store) (d : pydict) :
  payload_content st p d ->
  exists pre : store,
    script_resource_branch constants plugins operation_name m p exec mr ri
      is_workflows st
    = script_branch_result constants plugins operation_name m exec mr ri
        is_workflows st pre d.
Proof.
  intros Hd.
  destruct (run_or_empty_dict st p d Hd) as (pre & src & Hsrc & Hlook).
  exists pre. unfold script_resource_branch, script_branch_result.
  rewrite (bind_returns _ _ _ _ _ Hsrc).
  rewrite (bind_returns _ _ _ _ _ (run_deepcopy _ _ _ Hlook)).
  pose proof (lookup_snoc (st ++ pre)%list d) as Hnew.
  rewrite (bind_returns _ _ _ _ _ (run_contains _ _ _ _ Hnew)).
  destruct (bool_decide (is_Some (d !! SCRIPT_PATH_PROPERTY constants))).
  { by rewrite <- app_assoc. }
  cbv zeta.
  rewrite (bind_returns _ _ _ _ _ (run_setitem _ _ _ _ _ Hnew)).
  rewrite insert_snoc, <- app_assoc.
  unfold script_branch_outcome, script_descriptor, script_path_entry,
    getitem_plugin, getitem_executor.
  destruct (plugins !! SCRIPT_PLUGIN_NAME constants) as [pl|];
    [|by destruct is_workflows].
  destruct is_workflows; [done|].
  destruct (Str.truthy exec); [done|].
  destruct (plugin_executor pl) eqn:E; unfold bind, ret; cbn;
    rewrite E; reflexivity.
Qed.

(** A payload that refers to no object stops the script branch at its
    first read. *)
Lemma run_script_resource_branch_stuck (plugins : gmap string plugin)
    (operation_name m : string) (l : loc) (exec : string)
    (mr : option Z) (ri : option number) (is_workflows : bool)
    (st : store) :
  st !! l = None ->
  script_resource_branch constants plugins operation_name m (PyDict l)
    exec mr ri is_workflows st
  = (Stuck, st).
Proof.
  intros H. unfold script_resource_branch, or_empty_dict, bind, read.
  by rewrite H.
Qed.

Lemma script_branch_outcome_returns (plugins : gmap string plugin)
    (operation_name exec : string) (mr : option Z) (ri : option number)
    (is_workflows : bool) (l : loc) :
  Str.truthy exec = true ->
  script_branch_outcome constants plugins operation_name exec mr ri is_workflows l
  = Returns (script_descriptor constants operation_name exec mr ri is_workflows l).
Proof.
  intros H. unfold script_branch_outcome. by rewrite H, orb_true_r.
Qed.

(** With no matching plugin the engine either enters the script branch
    or reports the unresolved mapping with the caller's code and
    wording. *)
Lemma run_process_operation_no_match (plugins : gmap string plugin)
    (operation_name : string) (oc : declaration) (error_code : Z)
    (partial_error_message : string) (resource_base : option string)
    (is_workflows : bool) (m : string) (p : payload) (st : store) :
  mapping_field is_workflows oc = Some m ->
  payload_field is_workflows oc = Some p ->
  Str.truthy m = true ->
  candidates plugins m = [] ->
  process_operation constants uri_exists plugins operation_name oc
    error_code partial_error_message resource_base is_workflows st
  = if resource_found uri_exists resource_base m
    then script_resource_branch constants plugins operation_name m p
           (str_or (oc_executor oc) constants.(LOCAL_AGENT))
           (oc_max_retries oc) (oc_retry_interval oc) is_workflows st
    else (Raises (DSLParsingLogicException error_code
            (Concat
               (Format
                  "Could not extract plugin from {2} mapping '{0}', which is declared for {2} '{1}'. "
                  [AStr m; AStr operation_name;
                   AStr (kind_name is_workflows)])
               (Lit partial_error_message))), st).
Proof.
  intros Hm Hp Ht Hc. unfold process_operation.
  rewrite (bind_returns _ _ _ _ _ (run_getitem_mapping _ _ _ _ Hm)).
  rewrite (bind_returns _ _ _ _ _ (run_getitem_payload _ _ _ _ Hp)).
  rewrite Ht, Hc. cbn [negb]. unfold resource_found.
  destruct resource_base as [rb|]; [|reflexivity].
  destruct (Str.truthy rb && _resource_exists uri_exists rb m); reflexivity.
Qed.

(** With exactly one matching plugin the engine returns without touching
    the store; the payload of the descriptor is the caller's. *)
Lemma run_process_operation_one_match (plugins : gmap string plugin)
    (operation_name : string) (oc : declaration) (error_code : Z)
    (partial_error_message : string) (resource_base : option string)
    (is_workflows : bool) (m : string) (p : payload) (st : store)
    (P : string) :
  mapping_field is_workflows oc = Some m ->
  payload_field is_workflows oc = Some p ->
  candidates plugins m = [P] ->
  process_operation constants uri_exists plugins operation_name oc
    error_code partial_error_message resource_base is_workflows st
  = (Returns
       (if is_workflows
        then Workflow (_workflow_operation P
               (Str.slice_from (Str.len P + 1) m) p)
        else Operation (_operation operation_name P
               (Str.slice_from (Str.len P + 1) m) p
               (plugin_branch_executor constants plugins oc P)
               (oc_max_retries oc) (oc_retry_interval oc))),
     st).
Proof.
  intros Hm Hp Hc. unfold process_operation.
  rewrite (bind_returns _ _ _ _ _ (run_getitem_mapping _ _ _ _ Hm)).
  rewrite (bind_returns _ _ _ _ _ (run_getitem_payload _ _ _ _ Hp)).
  assert (is_Some (plugins !! P) /\ dot_prefix P m) as [[pl HP] Hd].
  { apply (elem_of_candidates plugins m P). rewrite Hc.
    apply list_elem_of_here. }
  rewrite (dot_prefix_truthy P m Hd), Hc. cbn [negb].
  destruct is_workflows; [done|].
  unfold plugin_branch_executor. cbv zeta.
  destruct (Str.truthy (str_or (oc_executor oc) (LOCAL_AGENT constants)));
    cbn [negb]; [done|].
  unfold getitem_plugin. rewrite HP. done.
Qed.

(** Once the default executor name is a non-empty string, the executor of
    the plugin branch no longer depends on the registry. *)
Lemma plugin_branch_executor_default (plugins : gmap string plugin)
    (oc : declaration) (P : string) :
  Str.truthy constants.(LOCAL_AGENT) = true ->
  plugin_branch_executor constants plugins oc P
  = str_or (oc_executor oc) constants.(LOCAL_AGENT).
Proof.
  intros H. unfold plugin_branch_executor. cbv zeta.
  by rewrite (str_or_truthy _ _ H).
Qed.

End EngineFacts.

Lemma run_process_operation_empty_mapping
    (constants : constants_module) (uri_exists : string -> bool)
    (plugins : gmap string plugin) (operation_name : string)
    (oc : declaration) (error_code : Z) (partial_error_message : string)
    (resource_base : option string) (is_workflows : bool)
    (m : string) (p : payload) (st : store) :
  mapping_field is_workflows oc = Some m ->
  payload_field is_workflows oc = Some p ->
  Str.truthy m = false ->
  process_operation constants uri_exists plugins operation_name oc
    error_code partial_error_message resource_base is_workflows st
  = if is_workflows
    then (Raises (RuntimeError (Lit
            "Illegal state. workflow mapping should alwaysbe defined (enforced by schema validation)")),
          st)
    else (Returns (Operation (_operation operation_name "" ""
                     (PyDict (length st)) constants.(LOCAL_AGENT)
                     None None)),
          (st ++ [∅])%list).
Proof.
  intros Hm Hp Ht. unfold process_operation.
  rewrite (bind_returns _ _ _ _ _ (run_getitem_mapping _ _ _ _ Hm)).
  rewrite (bind_returns _ _ _ _ _ (run_getitem_payload _ _ _ _ Hp)).
  rewrite Ht. by destruct is_workflows.
Qed.

Lemma run_process_operation_many_matches
    (constants : constants_module) (uri_exists : string -> bool)
    (plugins : gmap string plugin) (operation_name : string)
    (oc : declaration) (error_code : Z) (partial_error_message : string)
    (resource_base : option string) (is_workflows : bool)
    (m : string) (p : payload) (st : store) (a b : string)
    (rest : list string) :
  mapping_field is_workflows oc = Some m ->
  payload_field is_workflows oc = Some p ->
  Str.truthy m = true ->
  candidates plugins m = a :: b :: rest ->
  process_operation constants uri_exists plugins operation_name oc
    error_code partial_error_message resource_base is_workflows st
  = (Raises (DSLParsingLogicException 91 (Format
       "Ambiguous operation mapping. [operation={0}, plugins={1}]"
       [AStr operation_name; AStrList (candidates plugins m)])), st).
Proof.
  intros Hm Hp Ht Hc. unfold process_operation.
  rewrite (bind_returns _ _ _ _ _ (run_getitem_mapping _ _ _ _ Hm)).
  rewrite (bind_returns _ _ _ _ _ (run_getitem_payload _ _ _ _ Hp)).
  rewrite Ht, Hc. reflexivity.
Qed.

Lemma run_process_operation_fallback
    (constants : constants_module) (uri_exists : string -> bool)
    (plugins : gmap string plugin) (operation_name : string)
    (oc : declaration) (error_code : Z) (partial_error_message : string)
    (resource_base : option string) (is_workflows : bool)
    (m : string) (p : payload) (st : store) (d : pydict) :
  mapping_field is_workflows oc = Some m ->
  payload_field is_workflows oc = Some p ->
  fallback_reached uri_exists plugins resource_base m ->
  payload_content st p d ->
  exists pre : store,
    process_operation constants uri_exists plugins operation_name oc
      error_code partial_error_message resource_base is_workflows st
    = script_branch_result constants plugins operation_name m
        (str_or (oc_executor oc) constants.(LOCAL_AGENT))
        (oc_max_retries oc) (oc_retry_interval oc) is_workflows st pre d.
Proof.
  intros Hm Hp (Hne & Hnone & Hres) Hd.
  destruct (run_script_resource_branch constants plugins operation_name m p
              (str_or (oc_executor oc) constants.(LOCAL_AGENT))
              (oc_max_retries oc) (oc_retry_interval oc) is_workflows st d Hd)
    as [pre Hrun].
  exists pre. rewrite <- Hrun.
  rewrite (run_process_operation_no_match constants uri_exists plugins
             operation_name oc error_code partial_error_message
             resource_base is_workflows m p st Hm Hp).
  - apply resource_found_available in Hres. by rewrite Hres.
  - by apply truthy_nonempty.
  - by apply candidates_nil.
Qed.

(** Objects that exist before the script branch runs are the same
    afterwards. *)
Lemma script_branch_result_frame
    (constants : constants_module) (plugins : gmap string plugin)
    (operation_name m exec : string) (mr : option Z) (ri : option number)
    (is_workflows : bool) (st pre : store) (d : pydict) (l : loc)
    (obj : pydict) :
  st !! l = Some obj ->
  snd (script_branch_result constants plugins operation_name m exec mr ri
         is_workflows st pre d) !! l = Some obj.
Proof.
  intros H. unfold script_branch_result.
  destruct (bool_decide (is_Some (d !! SCRIPT_PATH_PROPERTY constants)));
    [|destruct (bool_decide (is_Some (plugins !! SCRIPT_PLUGIN_NAME constants)))];
    simpl; by apply lookup_app_l_Some.
Qed.

Lemma script_branch_outcome_descriptor
    (constants : constants_module) (plugins : gmap string plugin)
    (operation_name exec : string) (mr : option Z) (ri : option number)
    (is_workflows : bool) (l : loc) (desc : descriptor) :
  script_branch_outcome constants plugins operation_name exec mr ri
    is_workflows l = Returns desc ->
  descriptor_plugin desc = constants.(SCRIPT_PLUGIN_NAME)
  /\ descriptor_operation desc
     = (if is_workflows
        then constants.(SCRIPT_PLUGIN_EXECUTE_WORKFLOW_TASK)
        else constants.(SCRIPT_PLUGIN_RUN_TASK))
  /\ descriptor_payload desc = PyDict l.
Proof.
  unfold script_branch_outcome, script_descriptor.
  destruct is_workflows; cbn [orb].
  - intros [= <-]. done.
  - destruct (Str.truthy exec).
    + intros [= <-]. done.
    + destruct (plugins !! SCRIPT_PLUGIN_NAME constants) as [pl|]; [|done].
      destruct (plugin_executor pl); [|done]. intros [= <-]. done.
Qed.

(** * The claims of the specification *)

(** ** The retry-field validators *)

(** C9: with the gate enabled, a declared [max_retries] or [retry_interval]
    at a version below 1.1 fails the minimum-version check; whenever the
    gate is disabled the version is not looked at, and (as at versions from
    1.1 on with the gate enabled) the outcome is that of the bound check
    alone: [max_retries >= -1], [retry_interval] not negative; an absent
    value passes at every version, with or without the gate. *)
Theorem retry_validators_version_gate (nm : string) (version : Z * Z) :
  (forall v, version_ltb version (1, 1) = true ->
     OperationMaxRetries.validate
       {| name := nm; initial_value := Some v |} version true
     = Raises (VersionGateError nm (1, 1)))
  /\ (forall v, version_ltb version (1, 1) = true ->
        OperationRetryInterval.validate
          {| name := nm; initial_value := Some v |} version true
        = Raises (VersionGateError nm (1, 1)))
  /\ (forall flag v,
        flag = false \/ version_ltb version (1, 1) = false ->
        (v < -1 ->
         OperationMaxRetries.validate
           {| name := nm; initial_value := Some v |} version flag
         = Raises (ValueError (max_retries_message nm v)))
        /\ (-1 <= v ->
            OperationMaxRetries.validate
              {| name := nm; initial_value := Some v |} version flag
            = Returns tt))
  /\ (forall flag v,
        flag = false \/ version_ltb version (1, 1) = false ->
        (number_negative v ->
         OperationRetryInterval.validate
           {| name := nm; initial_value := Some v |} version flag
         = Raises (ValueError (retry_interval_message nm v)))
        /\ (~ number_negative v ->
            OperationRetryInterval.validate
              {| name := nm; initial_value := Some v |} version flag
            = Returns tt))
  /\ (forall flag,
        OperationMaxRetries.validate
          {| name := nm; initial_value := None |} version flag
        = Returns tt
        /\ OperationRetryInterval.validate
             {| name := nm; initial_value := None |} version flag
           = Returns tt).
Proof.
  split_and!.
  - intros v Hlt. unfold OperationMaxRetries.validate, validate_version.
    simpl. by rewrite Hlt.
  - intros v Hlt. unfold OperationRetryInterval.validate, validate_version.
    simpl. by rewrite Hlt.
  - intros flag v Hgate.
    assert ((if flag
             then validate_version
                    {| name := nm; initial_value := Some v |} version (1, 1)
             else Returns tt) = Returns tt) as Hcheck.
    { destruct Hgate as [-> | Hge]; [done|].
      unfold validate_version. simpl. rewrite Hge. by destruct flag. }
    unfold OperationMaxRetries.validate. cbn [initial_value].
    rewrite Hcheck. cbn [and_then name]. split; intros Hv.
    + apply Z.ltb_lt in Hv. by rewrite Hv.
    + apply Z.ltb_ge in Hv. by rewrite Hv.
  - intros flag v Hgate.
    assert ((if flag
             then validate_version
                    {| name := nm; initial_value := Some v |} version (1, 1)
             else Returns tt) = Returns tt) as Hcheck.
    { destruct Hgate as [-> | Hge]; [done|].
      unfold validate_version. simpl. rewrite Hge. by destruct flag. }
    unfold OperationRetryInterval.validate. cbn [initial_value].
    rewrite Hcheck. cbn [and_then name]. split; intros Hv.
    + apply number_ltb_zero_negative in Hv. by rewrite Hv.
    + apply number_ltb_zero_not_negative in Hv. by rewrite Hv.
  - intros flag. split; reflexivity.
Qed.

Lemma retry_validators_version_gate_witness :
  OperationMaxRetries.validate
    {| name := "max_retries"; initial_value := Some 5 |} (1, 0) true
  = Raises (VersionGateError "max_retries" (1, 1))
  /\ OperationMaxRetries.validate
       {| name := "max_retries"; initial_value := Some (-2) |} (1, 0) false
     = Raises (ValueError (max_retries_message "max_retries" (-2)))
  /\ OperationRetryInterval.validate
       {| name := "retry_interval"; initial_value := Some (NInt 10) |}
       (1, 0) false
     = Returns tt.
Proof.
  split_and!.
  - apply (proj1 (retry_validators_version_gate "max_retries" (1, 0))).
    reflexivity.
  - apply (proj1 (proj2 (proj2
             (retry_validators_version_gate "max_retries" (1, 0)))));
      [by left | lia].
  - apply (proj1 (proj2 (proj2 (proj2
             (retry_validators_version_gate "retry_interval" (1, 0))))));
      [by left | simpl; lia].
Defined.

(** C2, as the code has it: a declared [max_retries] below -1 and a
    declared negative [retry_interval] always make the validator fail, and
    whenever the version check is disabled or passed the failure is a
    [ValueError] built from the field name and the value: a text without a
    numeric code. *)
Theorem retry_bound_errors (nm : string) (version : Z * Z) (flag : bool) :
  (forall v, v < -1 ->
     (exists e, OperationMaxRetries.validate
                  {| name := nm; initial_value := Some v |} version flag
                = Raises e)
     /\ (flag = false \/ version_ltb version (1, 1) = false ->
         OperationMaxRetries.validate
           {| name := nm; initial_value := Some v |} version flag
         = Raises (ValueError (max_retries_message nm v))))
  /\ (forall v, number_negative v ->
        (exists e, OperationRetryInterval.validate
                     {| name := nm; initial_value := Some v |} version flag
                   = Raises e)
        /\ (flag = false \/ version_ltb version (1, 1) = false ->
            OperationRetryInterval.validate
              {| name := nm; initial_value := Some v |} version flag
            = Raises (ValueError (retry_interval_message nm v)))).
Proof.
  split.
  - intros v Hv. apply Z.ltb_lt in Hv.
    unfold OperationMaxRetries.validate, validate_version.
    cbn [initial_value name]. split.
    + destruct flag, (version_ltb version (1, 1)); cbn [and_then];
        rewrite ?Hv; eauto.
    + intros [-> | ->]; [|destruct flag]; cbn [and_then]; by rewrite Hv.
  - intros v Hv. apply number_ltb_zero_negative in Hv.
    unfold OperationRetryInterval.validate, validate_version.
    cbn [initial_value name]. split.
    + destruct flag, (version_ltb version (1, 1)); cbn [and_then];
        rewrite ?Hv; eauto.
    + intros [-> | ->]; [|destruct flag]; cbn [and_then]; by rewrite Hv.
Qed.

Lemma retry_bound_errors_witness :
  OperationMaxRetries.validate
    {| name := "max_retries"; initial_value := Some (-2) |} (1, 3) true
  = Raises (ValueError (max_retries_message "max_retries" (-2)))
  /\ OperationRetryInterval.validate
       {| name := "retry_interval";
          initial_value := Some (NFloat (S754_finite true 1 (-1))) |}
       (1, 0) false
     = Raises (ValueError (retry_interval_message "retry_interval"
                             (NFloat (S754_finite true 1 (-1))))).
Proof.
  split.
  - apply (proj1 (retry_bound_errors "max_retries" (1, 3) true));
      [lia | by right].
  - apply (proj2 (retry_bound_errors "retry_interval" (1, 0) false));
      [exact I | by left].
Defined.

(** C2 as stated fails: for [max_retries = -2] and for
    [retry_interval = -1], with the version check disabled, the validators
    raise a [ValueError]; neither raises the coded exception of document
    errors. *)
Lemma retry_bound_errors_not_coded :
  OperationMaxRetries.validate
    {| name := "max_retries"; initial_value := Some (-2) |} (1, 2) false
  = Raises (ValueError (max_retries_message "max_retries" (-2)))
  /\ OperationRetryInterval.validate
       {| name := "retry_interval"; initial_value := Some (NInt (-1)) |}
       (1, 2) false
     = Raises (ValueError (retry_interval_message "retry_interval"
                             (NInt (-1))))
  /\ ~ (exists code msg,
       OperationMaxRetries.validate
         {| name := "max_retries"; initial_value := Some (-2) |} (1, 2) false
       = Raises (DSLParsingLogicException code msg))
  /\ ~ (exists code msg,
          OperationRetryInterval.validate
            {| name := "retry_interval"; initial_value := Some (NInt (-1)) |}
            (1, 2) false
          = Raises (DSLParsingLogicException code msg)).
Proof.
  split_and!; [reflexivity | reflexivity | |];
    intros (code & msg & H); discriminate H.
Qed.

(** ** Empty mappings *)

(** C5: for a declaration whose mapping string is empty, the engine called
    for an operation returns the no-op descriptor: the given name, plugin
    and operation [""], a new empty [dict] as inputs, the local-agent
    executor and no retry fields; called for a workflow it raises a
    [RuntimeError], not a document error. *)
Theorem process_operation_empty_mapping
    (constants : constants_module) (uri_exists : string -> bool)
    (plugins : gmap string plugin) (operation_name : string)
    (oc : declaration) (error_code : Z) (partial_error_message : string)
    (resource_base : option string) (p : payload) (st : store) :
  (mapping_field false oc = Some "" ->
   payload_field false oc = Some p ->
   process_operation constants uri_exists plugins operation_name oc
     error_code partial_error_message resource_base false st
   = (Returns (Operation
        {| op_name := operation_name;
           op_plugin := "";
           op_operation := "";
           op_executor := constants.(LOCAL_AGENT);
           op_inputs := PyDict (length st);
           op_has_intrinsic_functions := false;
           op_max_retries := None;
           op_retry_interval := None |}),
      (st ++ [∅])%list)
   /\ (st ++ [∅])%list !! length st = Some (∅ : pydict))
  /\ (mapping_field true oc = Some "" ->
      payload_field true oc = Some p ->
      process_operation constants uri_exists plugins operation_name oc
        error_code partial_error_message resource_base true st
      = (Raises (RuntimeError (Lit
           "Illegal state. workflow mapping should alwaysbe defined (enforced by schema validation)")),
         st)
      /\ forall code msg,
           fst (process_operation constants uri_exists plugins operation_name
                  oc error_code partial_error_message resource_base true st)
           <> Raises (DSLParsingLogicException code msg)).
Proof.
  split; intros Hm Hp.
  - split; [|apply lookup_snoc].
    by rewrite (run_process_operation_empty_mapping constants uri_exists
                  plugins operation_name oc error_code partial_error_message
                  resource_base false "" p st Hm Hp eq_refl).
  - rewrite (run_process_operation_empty_mapping constants uri_exists
               plugins operation_name oc error_code partial_error_message
               resource_base true "" p st Hm Hp eq_refl).
    split; [done|]. intros code msg. discriminate.
Qed.

Lemma process_operation_empty_mapping_witness :
  process_operation sample_constants sample_uri_exists sample_plugins
    "start" (operation_declaration "" PyNone) 50 "" None false []
  = (Returns (Operation
       {| op_name := "start";
          op_plugin := "";
          op_operation := "";
          op_executor := "local_agent";
          op_inputs := PyDict 0%nat;
          op_has_intrinsic_functions := false;
          op_max_retries := None;
          op_retry_interval := None |}),
     [∅])
  /\ fst (process_operation sample_constants sample_uri_exists sample_plugins
            "install" (workflow_declaration "" PyNone) 50 "" None true [])
     = Raises (RuntimeError (Lit
         "Illegal state. workflow mapping should alwaysbe defined (enforced by schema validation)")).
Proof.
  split.
  - apply (proj1 (process_operation_empty_mapping sample_constants
                    sample_uri_exists sample_plugins "start"
                    (operation_declaration "" PyNone) 50 "" None PyNone []));
      reflexivity.
  - rewrite (proj1 (proj2 (process_operation_empty_mapping sample_constants
                      sample_uri_exists sample_plugins "install"
                      (workflow_declaration "" PyNone) 50 "" None PyNone [])
                    eq_refl eq_refl)).
    reflexivity.
Defined.

(** ** Plugin-qualified mappings *)

(** C3: the candidates are exactly the registered plugin names [P] such
    that the mapping starts with [P] followed by a dot, each listed once;
    the list is [[P]] exactly when [P] is the only such plugin; and then
    the engine returns a descriptor whose plugin is [P] and whose operation
    is the mapping without its leading [P.], leaving the store as it
    was. *)
Theorem process_operation_plugin_match
    (constants : constants_module) (uri_exists : string -> bool)
    (plugins : gmap string plugin) (m : string) :
  (forall P, P ∈ candidates plugins m
             <-> is_Some (plugins !! P) /\ dot_prefix P m)
  /\ NoDup (candidates plugins m)
  /\ (forall P, candidates plugins m = [P]
                <-> is_Some (plugins !! P) /\ dot_prefix P m
                    /\ forall Q, is_Some (plugins !! Q) ->
                                 dot_prefix Q m -> Q = P)
  /\ (forall operation_name oc error_code partial_error_message
             resource_base is_workflows p st P,
        mapping_field is_workflows oc = Some m ->
        payload_field is_workflows oc = Some p ->
        candidates plugins m = [P] ->
        exists d,
          process_operation constants uri_exists plugins operation_name oc
            error_code partial_error_message resource_base is_workflows st
          = (Returns d, st)
          /\ descriptor_plugin d = P
          /\ m = P ++ "." ++ descriptor_operation d).
Proof.
  split_and!.
  - intros P. apply elem_of_candidates.
  - apply NoDup_candidates.
  - intros P. apply candidates_singleton.
  - intros operation_name oc error_code partial_error_message resource_base
      is_workflows p st P Hm Hp Hc.
    eexists. split.
    + by apply run_process_operation_one_match.
    + apply candidates_singleton in Hc as (_ & [rest ->] & _).
      destruct is_workflows;
        cbn [descriptor_plugin descriptor_operation _operation
             _workflow_operation op_plugin op_operation wf_plugin
             wf_operation];
        by rewrite slice_from_dot_prefix.
Qed.

Lemma process_operation_plugin_match_witness :
  exists d,
    process_operation sample_constants sample_uri_exists sample_plugins
      "create" (operation_declaration "p1.run" PyNone) 50 "" None false []
    = (Returns d, [])
    /\ descriptor_plugin d = "p1"
    /\ "p1.run" = "p1" ++ "." ++ descriptor_operation d.
Proof.
  apply (proj2 (proj2 (proj2
           (process_operation_plugin_match sample_constants sample_uri_exists
              sample_plugins "p1.run"))))
    with (p := PyNone).
  - reflexivity.
  - reflexivity.
  - vm_compute. reflexivity.
Defined.

(** The example of the specification, evaluated: with
    [{"p1": {"executor": "local"}, "p2": {}}] the mapping ["p1.run"]
    resolves to plugin ["p1"] and operation ["run"]. *)
Example process_operation_p1_run :
  fst (process_operation sample_constants sample_uri_exists sample_plugins
         "create" (operation_declaration "p1.run" PyNone) 50 "" None false [])
  = Returns (Operation (_operation "create" "p1" "run" PyNone "local_agent"
                          None None)).
Proof. vm_compute. reflexivity. Qed.



(** ** The executor of a plugin-qualified operation *)

(** With a non-empty default executor name, the executor of an operation
    resolved through its only matching plugin is the declared one, or the
    default when none (or an empty one) is declared: the registry entry of
    the plugin is never consulted. *)
Lemma process_operation_executor_one_match
    (constants : constants_module) (uri_exists : string -> bool)
    (plugins : gmap string plugin) (operation_name : string)
    (oc : declaration) (error_code : Z) (partial_error_message : string)
    (resource_base : option string) (m : string) (p : payload)
    (st : store) (P : string) :
  Str.truthy constants.(LOCAL_AGENT) = true ->
  mapping_field false oc = Some m ->
  payload_field false oc = Some p ->
  candidates plugins m = [P] ->
  exists o,
    process_operation constants uri_exists plugins operation_name oc
      error_code partial_error_message resource_base false st
    = (Returns (Operation o), st)
    /\ op_executor o = str_or (oc_executor oc) constants.(LOCAL_AGENT).
Proof.
  intros Hla Hm Hp Hc. eexists. split.
  - by apply (run_process_operation_one_match constants uri_exists plugins
                operation_name oc error_code partial_error_message
                resource_base false m p st P).
  - simpl. by apply plugin_branch_executor_default.
Qed.

(** C1, evaluated on the registry [{"p1": {"executor": e}}] and the
    declaration [{'implementation': 'p1.run', 'inputs': None}], which
    declares no executor: whatever executor [e] the only matching plugin
    supplies, the engine resolves the executor to the default name
    (provided that name is a non-empty string). *)
Theorem process_operation_plugin_executor_ignored
    (constants : constants_module) (uri_exists : string -> bool)
    (e : string) :
  Str.truthy constants.(LOCAL_AGENT) = true ->
  process_operation constants uri_exists
    {[ "p1" := {| plugin_executor := Some e |} ]}
    "create" (operation_declaration "p1.run" PyNone) 50 "" None false []
  = (Returns (Operation
       {| op_name := "create";
          op_plugin := "p1";
          op_operation := "run";
          op_executor := constants.(LOCAL_AGENT);
          op_inputs := PyNone;
          op_has_intrinsic_functions := false;
          op_max_retries := None;
          op_retry_interval := None |}),
     []).
Proof.
  intros Hla.
  rewrite (run_process_operation_one_match constants uri_exists
             {[ "p1" := {| plugin_executor := Some e |} ]}
             "create" (operation_declaration "p1.run" PyNone) 50 "" None
             false "p1.run" PyNone [] "p1" eq_refl eq_refl).
  - cbn [_operation]. rewrite plugin_branch_executor_default by done.
    reflexivity.
  - vm_compute. reflexivity.
Qed.

Lemma process_operation_plugin_executor_ignored_witness :
  op_executor
    match fst (process_operation sample_constants sample_uri_exists
                 {[ "p1" := {| plugin_executor :=
                                 Some "central_deployment_agent" |} ]}
                 "create" (operation_declaration "p1.run" PyNone)
                 50 "" None false [])
    with
    | Returns (Operation o) => o
    | _ => _operation "" "" "" PyNone "" None None
    end
  = "local_agent".
Proof.
  rewrite (process_operation_plugin_executor_ignored sample_constants
             sample_uri_exists "central_deployment_agent" eq_refl).
  reflexivity.
Defined.

(** ** The script-resource fallback *)

(** C6, as the code has it: when the fallback is reached, the payload does
    not declare the reserved key and the script plugin is registered, the
    engine returns a descriptor whose plugin is the script plugin, whose
    operation is the run-script task (operations) or the execute-workflow
    task (workflows), and whose payload is a new object holding the
    payload's content plus the mapping string under the reserved key: bare
    for an operation, as a record with a default and a description for a
    workflow.  Conversely, a descriptor whose payload is a new object
    carrying the reserved key is returned only when all of this holds. *)
Theorem process_operation_script_fallback
    (constants : constants_module) (uri_exists : string -> bool)
    (plugins : gmap string plugin) (operation_name : string)
    (oc : declaration) (error_code : Z) (partial_error_message : string)
    (resource_base : option string) (is_workflows : bool)
    (m : string) (p : payload) (st : store) :
  mapping_field is_workflows oc = Some m ->
  payload_field is_workflows oc = Some p ->
  (forall d,
     Str.truthy constants.(LOCAL_AGENT) = true ->
     fallback_reached uri_exists plugins resource_base m ->
     payload_content st p d ->
     d !! constants.(SCRIPT_PATH_PROPERTY) = None ->
     is_Some (plugins !! constants.(SCRIPT_PLUGIN_NAME)) ->
     exists desc st' l,
       process_operation constants uri_exists plugins operation_name oc
         error_code partial_error_message resource_base is_workflows st
       = (Returns desc, st')
       /\ descriptor_plugin desc = constants.(SCRIPT_PLUGIN_NAME)
       /\ descriptor_operation desc
          = (if is_workflows
             then constants.(SCRIPT_PLUGIN_EXECUTE_WORKFLOW_TASK)
             else constants.(SCRIPT_PLUGIN_RUN_TASK))
       /\ descriptor_payload desc = PyDict l
       /\ st' !! l
          = Some (<[constants.(SCRIPT_PATH_PROPERTY)
                    := if is_workflows
                       then VDict
                              [("default", VStr m);
                               ("description",
                                VStr "Workflow script executed by the script plugin")]
                       else VStr m]> d))
  /\ (forall desc st' l d',
        process_operation constants uri_exists plugins operation_name oc
          error_code partial_error_message resource_base is_workflows st
        = (Returns desc, st') ->
        descriptor_payload desc = PyDict l ->
        st !! l = None ->
        st' !! l = Some d' ->
        is_Some (d' !! constants.(SCRIPT_PATH_PROPERTY)) ->
        fallback_reached uri_exists plugins resource_base m
        /\ is_Some (plugins !! constants.(SCRIPT_PLUGIN_NAME))
        /\ exists d, payload_content st p d
                     /\ d !! constants.(SCRIPT_PATH_PROPERTY) = None).
Proof.
  intros Hm Hp. split.
  - intros d Hla Hfb Hd Hkey Hscript.
    destruct (run_process_operation_fallback constants uri_exists plugins
                operation_name oc error_code partial_error_message
                resource_base is_workflows m p st d Hm Hp Hfb Hd)
      as [pre Hrun].
    rewrite Hrun. unfold script_branch_result. rewrite Hkey.
    rewrite bool_decide_eq_false_2 by (intros [? ?]; done).
    cbv zeta. rewrite bool_decide_eq_true_2 by done.
    rewrite script_branch_outcome_returns by (by apply str_or_truthy).
    do 3 eexists. split_and!.
    + reflexivity.
    + unfold script_descriptor. by destruct is_workflows.
    + unfold script_descriptor. by destruct is_workflows.
    + unfold script_descriptor. by destruct is_workflows.
    + by rewrite app_assoc, lookup_snoc.
  - intros desc st' l d' Hrun Hpay Hfresh Hl Hkey.
    destruct (Str.truthy m) eqn:Ht.
    2:{ rewrite (run_process_operation_empty_mapping constants uri_exists
                   plugins operation_name oc error_code
                   partial_error_message resource_base is_workflows m p st
                   Hm Hp Ht) in Hrun.
        destruct is_workflows; [discriminate|].
        injection Hrun as <- <-. simpl in Hpay. injection Hpay as <-.
        rewrite lookup_snoc in Hl. injection Hl as <-.
        rewrite lookup_empty in Hkey. by destruct Hkey. }
    destruct (candidates plugins m) as [|a [|b rest]] eqn:Hc.
    + rewrite (run_process_operation_no_match constants uri_exists plugins
                 operation_name oc error_code partial_error_message
                 resource_base is_workflows m p st Hm Hp Ht Hc) in Hrun.
      destruct (resource_found uri_exists resource_base m) eqn:Hres;
        [|discriminate].
      assert (fallback_reached uri_exists plugins resource_base m) as Hfb.
      { split_and!.
        - by apply truthy_nonempty.
        - by apply candidates_nil.
        - by apply resource_found_available. }
      assert (exists d, payload_content st p d) as [d Hd].
      { destruct p as [|l0]; [by exists ∅|].
        destruct (st !! l0) as [d|] eqn:E; [by exists d|].
        rewrite run_script_resource_branch_stuck in Hrun by done.
        discriminate. }
      destruct (run_script_resource_branch constants plugins operation_name
                  m p (str_or (oc_executor oc) constants.(LOCAL_AGENT))
                  (oc_max_retries oc) (oc_retry_interval oc) is_workflows
                  st d Hd) as [pre Hbranch].
      rewrite Hbranch in Hrun. unfold script_branch_result in Hrun.
      destruct (bool_decide (is_Some (d !! SCRIPT_PATH_PROPERTY constants)))
        eqn:Hcol; [discriminate|].
      cbv zeta in Hrun.
      destruct (bool_decide
                  (is_Some (plugins !! SCRIPT_PLUGIN_NAME constants)))
        eqn:Hreg; [|discriminate].
      split_and!.
      * exact Hfb.
      * by apply bool_decide_eq_true in Hreg.
      * exists d. split; [done|].
        apply bool_decide_eq_false in Hcol.
        destruct (d !! SCRIPT_PATH_PROPERTY constants) eqn:E; [|done].
        destruct Hcol. by eexists.
    + rewrite (run_process_operation_one_match constants uri_exists plugins
                 operation_name oc error_code partial_error_message
                 resource_base is_workflows m p st a Hm Hp Hc) in Hrun.
      injection Hrun as <- <-.
      rewrite Hfresh in Hl. discriminate.
    + rewrite (run_process_operation_many_matches constants uri_exists
                 plugins operation_name oc error_code partial_error_message
                 resource_base is_workflows m p st a b rest Hm Hp Ht) in Hrun;
        [discriminate|].
      exact Hc.
Qed.

Lemma process_operation_script_fallback_witness :
  exists desc st' l,
    process_operation sample_constants sample_uri_exists
      sample_plugins_with_script "create"
      (operation_declaration "scripts/install.sh" (PyDict 0%nat))
      50 "" (Some "blueprint") false [ {[ "retries" := VNum (NInt 3) ]} ]
    = (Returns desc, st')
    /\ descriptor_plugin desc = "script"
    /\ descriptor_operation desc = "script_runner.tasks.run"
    /\ descriptor_payload desc = PyDict l
    /\ st' !! l
       = Some (<["script_path" := VStr "scripts/install.sh"]>
                 {[ "retries" := VNum (NInt 3) ]}).
Proof.
  apply (proj1 (process_operation_script_fallback sample_constants
                  sample_uri_exists sample_plugins_with_script "create"
                  (operation_declaration "scripts/install.sh" (PyDict 0%nat))
                  50 "" (Some "blueprint") false "scripts/install.sh"
                  (PyDict 0%nat) [ {[ "retries" := VNum (NInt 3) ]} ]
                  eq_refl eq_refl)).
  - reflexivity.
  - split_and!.
    + discriminate.
    + apply candidates_nil. vm_compute. reflexivity.
    + apply resource_found_available. vm_compute. reflexivity.
  - reflexivity.
  - vm_compute. reflexivity.
  - eexists. vm_compute. reflexivity.
Defined.

(** C6 as stated fails: no registered plugin matches
    ["scripts/install.sh"], a resource base is supplied, the resource
    exists and the script plugin is registered, yet for a payload that
    already declares the reserved key the engine raises the collision error
    instead of returning a descriptor. *)
Lemma process_operation_script_fallback_collision :
  candidates sample_plugins_with_script "scripts/install.sh" = []
  /\ resource_found sample_uri_exists (Some "blueprint") "scripts/install.sh"
     = true
  /\ is_Some (sample_plugins_with_script !! "script")
  /\ fst (process_operation sample_constants sample_uri_exists
            sample_plugins_with_script "create"
            (operation_declaration "scripts/install.sh" (PyDict 0%nat))
            50 "" (Some "blueprint") false
            [ {[ "script_path" := VStr "other.sh" ]} ])
     = Raises (DSLParsingLogicException 60 (Format
         "Cannot define '{0}' property in '{1}' for {2} '{3}'"
         [AStr "script_path"; AStr "scripts/install.sh";
          AStr "operation"; AStr "create"]))
  /\ ~ (exists desc st',
          process_operation sample_constants sample_uri_exists
            sample_plugins_with_script "create"
            (operation_declaration "scripts/install.sh" (PyDict 0%nat))
            50 "" (Some "blueprint") false
            [ {[ "script_path" := VStr "other.sh" ]} ]
          = (Returns desc, st')).
Proof.
  assert (fst (process_operation sample_constants sample_uri_exists
            sample_plugins_with_script "create"
            (operation_declaration "scripts/install.sh" (PyDict 0%nat))
            50 "" (Some "blueprint") false
            [ {[ "script_path" := VStr "other.sh" ]} ])
     = Raises (DSLParsingLogicException 60 (Format
         "Cannot define '{0}' property in '{1}' for {2} '{3}'"
         [AStr "script_path"; AStr "scripts/install.sh";
          AStr "operation"; AStr "create"]))) as H
    by (vm_compute; reflexivity).
  split_and!.
  - vm_compute. reflexivity.
  - vm_compute. reflexivity.
  - eexists. vm_compute. reflexivity.
  - exact H.
  - intros (desc & st' & E). rewrite E in H. discriminate H.
Qed.


(** C7: whenever the fallback is reached, every object that existed before
    the call (the caller's payload among them) is the same after it,
    whether the call returns or raises; a returned descriptor refers to a
    new object, different from the argument, and that object alone carries
    the reserved entry on top of the payload's content. *)
Theorem process_operation_fallback_preserves_payload
    (constants : constants_module) (uri_exists : string -> bool)
    (plugins : gmap string plugin) (operation_name : string)
    (oc : declaration) (error_code : Z) (partial_error_message : string)
    (resource_base : option string) (is_workflows : bool)
    (m : string) (p : payload) (st : store) (d : pydict)
    (res : outcome descriptor) (st' : store) :
  mapping_field is_workflows oc = Some m ->
  payload_field is_workflows oc = Some p ->
  fallback_reached uri_exists plugins resource_base m ->
  payload_content st p d ->
  process_operation constants uri_exists plugins operation_name oc
    error_code partial_error_message resource_base is_workflows st
  = (res, st') ->
  (forall l obj, st !! l = Some obj -> st' !! l = Some obj)
  /\ payload_content st' p d
  /\ (forall desc, res = Returns desc ->
        exists l', descriptor_payload desc = PyDict l'
                   /\ st !! l' = None
                   /\ p <> PyDict l'
                   /\ st' !! l'
                      = Some (<[constants.(SCRIPT_PATH_PROPERTY)
                                := script_path_entry is_workflows m]> d)).
Proof.
  intros Hm Hp Hfb Hd Hrun.
  destruct (run_process_operation_fallback constants uri_exists plugins
              operation_name oc error_code partial_error_message
              resource_base is_workflows m p st d Hm Hp Hfb Hd)
    as [pre Hres].
  rewrite Hres in Hrun.
  assert (forall l obj, st !! l = Some obj -> st' !! l = Some obj) as Hframe.
  { intros l obj Hl.
    change st' with (snd (res, st')). rewrite <- Hrun.
    by apply script_branch_result_frame. }
  split_and!.
  - exact Hframe.
  - destruct p as [|l]; simpl in *; [done | by apply Hframe].
  - intros desc ->. unfold script_branch_result in Hrun.
    destruct (bool_decide (is_Some (d !! SCRIPT_PATH_PROPERTY constants)));
      [discriminate|].
    cbv zeta in Hrun.
    destruct (bool_decide (is_Some (plugins !! SCRIPT_PLUGIN_NAME constants)));
      [|discriminate].
    injection Hrun as Hout <-.
    apply script_branch_outcome_descriptor in Hout as (_ & _ & Hpay).
    exists (length (st ++ pre)%list).
    assert (st !! length (st ++ pre)%list = None) as Hfresh.
    { apply lookup_ge_None. rewrite length_app. lia. }
    split_and!.
    + exact Hpay.
    + exact Hfresh.
    + intros ->. simpl in Hd. congruence.
    + by rewrite app_assoc, lookup_snoc.
Qed.

Lemma process_operation_fallback_preserves_payload_witness :
  (forall l obj,
     [ ({[ "retries" := VNum (NInt 3) ]} : pydict) ] !! l = Some obj ->
     snd (process_operation sample_constants sample_uri_exists
            sample_plugins_with_script "create"
            (operation_declaration "scripts/install.sh" (PyDict 0%nat))
            50 "" (Some "blueprint") false
            [ {[ "retries" := VNum (NInt 3) ]} ]) !! l = Some obj)
  /\ snd (process_operation sample_constants sample_uri_exists
            sample_plugins_with_script "create"
            (operation_declaration "scripts/install.sh" (PyDict 0%nat))
            50 "" (Some "blueprint") false
            [ {[ "retries" := VNum (NInt 3) ]} ]) !! 0%nat
     = Some {[ "retries" := VNum (NInt 3) ]}.
Proof.
  assert (forall l obj,
     [ ({[ "retries" := VNum (NInt 3) ]} : pydict) ] !! l = Some obj ->
     snd (process_operation sample_constants sample_uri_exists
            sample_plugins_with_script "create"
            (operation_declaration "scripts/install.sh" (PyDict 0%nat))
            50 "" (Some "blueprint") false
            [ {[ "retries" := VNum (NInt 3) ]} ]) !! l = Some obj) as H.
  { apply (process_operation_fallback_preserves_payload sample_constants
             sample_uri_exists sample_plugins_with_script "create"
             (operation_declaration "scripts/install.sh" (PyDict 0%nat))
             50 "" (Some "blueprint") false "scripts/install.sh"
             (PyDict 0%nat) [ {[ "retries" := VNum (NInt 3) ]} ]
             {[ "retries" := VNum (NInt 3) ]}
             (fst (process_operation sample_constants sample_uri_exists
                     sample_plugins_with_script "create"
                     (operation_declaration "scripts/install.sh"
                        (PyDict 0%nat))
                     50 "" (Some "blueprint") false
                     [ {[ "retries" := VNum (NInt 3) ]} ]))).
    - reflexivity.
    - reflexivity.
    - split_and!.
      + discriminate.
      + apply candidates_nil. vm_compute. reflexivity.
      + apply resource_found_available. vm_compute. reflexivity.
    - reflexivity.
    - apply surjective_pairing. }
  split; [exact H | apply H; reflexivity].
Defined.

(** C8: when the fallback is reached and the payload already declares the
    reserved script-path key, the engine raises the reserved-property
    collision error (code 60), built from the key, the mapping, the kind
    and the operation name, and returns no descriptor. *)
Theorem process_operation_reserved_property_collision
    (constants : constants_module) (uri_exists : string -> bool)
    (plugins : gmap string plugin) (operation_name : string)
    (oc : declaration) (error_code : Z) (partial_error_message : string)
    (resource_base : option string) (is_workflows : bool)
    (m : string) (p : payload) (st : store) (d : pydict) :
  mapping_field is_workflows oc = Some m ->
  payload_field is_workflows oc = Some p ->
  fallback_reached uri_exists plugins resource_base m ->
  payload_content st p d ->
  is_Some (d !! constants.(SCRIPT_PATH_PROPERTY)) ->
  fst (process_operation constants uri_exists plugins operation_name oc
         error_code partial_error_message resource_base is_workflows st)
  = Raises (DSLParsingLogicException 60 (Format
      "Cannot define '{0}' property in '{1}' for {2} '{3}'"
      [AStr constants.(SCRIPT_PATH_PROPERTY); AStr m;
       AStr (kind_name is_workflows); AStr operation_name]))
  /\ (forall desc st',
        process_operation constants uri_exists plugins operation_name oc
          error_code partial_error_message resource_base is_workflows st
        <> (Returns desc, st')).
Proof.
  intros Hm Hp Hfb Hd Hkey.
  destruct (run_process_operation_fallback constants uri_exists plugins
              operation_name oc error_code partial_error_message
              resource_base is_workflows m p st d Hm Hp Hfb Hd)
    as [pre Hrun].
  rewrite Hrun. unfold script_branch_result.
  rewrite bool_decide_eq_true_2 by done. split; [done|].
  intros desc st'. discriminate.
Qed.

Lemma process_operation_reserved_property_collision_witness :
  fst (process_operation sample_constants sample_uri_exists
         sample_plugins_with_script "create"
         (operation_declaration "scripts/install.sh" (PyDict 0%nat))
         50 "" (Some "blueprint") false
         [ {[ "script_path" := VStr "other.sh" ]} ])
  = Raises (DSLParsingLogicException 60 (Format
      "Cannot define '{0}' property in '{1}' for {2} '{3}'"
      [AStr "script_path"; AStr "scripts/install.sh";
       AStr "operation"; AStr "create"])).
Proof.
  apply (process_operation_reserved_property_collision sample_constants
           sample_uri_exists sample_plugins_with_script "create"
           (operation_declaration "scripts/install.sh" (PyDict 0%nat))
           50 "" (Some "blueprint") false "scripts/install.sh"
           (PyDict 0%nat) [ {[ "script_path" := VStr "other.sh" ]} ]
           {[ "script_path" := VStr "other.sh" ]}).
  - reflexivity.
  - reflexivity.
  - split_and!.
    + discriminate.
    + apply candidates_nil. vm_compute. reflexivity.
    + apply resource_found_available. vm_compute. reflexivity.
  - reflexivity.
  - eexists. vm_compute. reflexivity.
Defined.

(** C10: when the fallback is reached with a payload that is [None] or an
    empty [dict], the payload counts as the empty mapping: no error comes
    from it, and with the script plugin registered the engine returns a
    descriptor whose payload holds exactly one entry, the reserved key
    bound to the mapping string (for a workflow, to the record made of the
    default and the description). *)
Theorem process_operation_fallback_empty_payload
    (constants : constants_module) (uri_exists : string -> bool)
    (plugins : gmap string plugin) (operation_name : string)
    (oc : declaration) (error_code : Z) (partial_error_message : string)
    (resource_base : option string) (is_workflows : bool)
    (m : string) (p : payload) (st : store) :
  Str.truthy constants.(LOCAL_AGENT) = true ->
  mapping_field is_workflows oc = Some m ->
  payload_field is_workflows oc = Some p ->
  fallback_reached uri_exists plugins resource_base m ->
  payload_content st p ∅ ->
  is_Some (plugins !! constants.(SCRIPT_PLUGIN_NAME)) ->
  exists desc st' l,
    process_operation constants uri_exists plugins operation_name oc
      error_code partial_error_message resource_base is_workflows st
    = (Returns desc, st')
    /\ descriptor_payload desc = PyDict l
    /\ st' !! l
       = Some {[ constants.(SCRIPT_PATH_PROPERTY)
                 := script_path_entry is_workflows m ]}.
Proof.
  intros Hla Hm Hp Hfb Hd Hscript.
  destruct (run_process_operation_fallback constants uri_exists plugins
              operation_name oc error_code partial_error_message
              resource_base is_workflows m p st ∅ Hm Hp Hfb Hd)
    as [pre Hrun].
  rewrite Hrun. unfold script_branch_result.
  rewrite lookup_empty.
  rewrite bool_decide_eq_false_2 by (intros [? ?]; done).
  cbv zeta. rewrite bool_decide_eq_true_2 by done.
  rewrite script_branch_outcome_returns by (by apply str_or_truthy).
  do 3 eexists. split_and!.
  - reflexivity.
  - unfold script_descriptor. by destruct is_workflows.
  - rewrite app_assoc, lookup_snoc, insert_empty. done.
Qed.

Lemma process_operation_fallback_empty_payload_witness :
  exists desc st' l,
    process_operation sample_constants sample_uri_exists
      sample_plugins_with_script "install"
      (workflow_declaration "scripts/install.sh" PyNone)
      50 "" (Some "blueprint") true []
    = (Returns desc, st')
    /\ descriptor_payload desc = PyDict l
    /\ st' !! l
       = Some {[ "script_path"
                 := VDict [("default", VStr "scripts/install.sh");
                           ("description",
                            VStr "Workflow script executed by the script plugin")] ]}.
Proof.
  apply (process_operation_fallback_empty_payload sample_constants
           sample_uri_exists sample_plugins_with_script "install"
           (workflow_declaration "scripts/install.sh" PyNone)
           50 "" (Some "blueprint") true "scripts/install.sh" PyNone []).
  - reflexivity.
  - reflexivity.
  - reflexivity.
  - split_and!.
    + discriminate.
    + apply candidates_nil. vm_compute. reflexivity.
    + apply resource_found_available. vm_compute. reflexivity.
  - reflexivity.
  - eexists. vm_compute. reflexivity.
Defined.

(** * Further properties of the code *)

(** ** Every call ends on one of the paths *)

Lemma run_or_empty_dict_pre (st : store) (p : payload) (d : pydict) :
  payload_content st p d ->
  exists (pre : store) (src : loc),
    (pre = [] \/ pre = [∅])
    /\ or_empty_dict p st = (Returns src, (st ++ pre)%list)
    /\ (st ++ pre)%list !! src = Some d
    /\ (pre = [] -> p = PyDict src).
Proof.
  intros Hd. destruct p as [|l]; simpl in Hd.
  - subst d. exists [∅], (length st). split_and!; [by right | done | | done].
    apply lookup_snoc.
  - unfold or_empty_dict.
    rewrite (bind_returns _ _ _ _ _ (run_read _ _ _ Hd)).
    destruct (Nat.eqb (size d) 0) eqn:E.
    + apply Nat.eqb_eq, map_size_empty_iff in E. subst d.
      exists [∅], (length st). split_and!; [by right | done | | done].
      apply lookup_snoc.
    + exists [], l. rewrite app_nil_r. split_and!; [by left | done..].
Qed.

Lemma run_script_resource_branch_pre
    (constants : constants_module) (plugins : gmap string plugin)
    (operation_name m : string) (p : payload) (exec : string)
    (mr : option Z) (ri : option number) (is_workflows : bool)
    (st : store) (d : pydict) :
  payload_content st p d ->
  exists pre : store,
    (pre = [] \/ pre = [∅])
    /\ script_resource_branch constants plugins operation_name m p exec mr ri
         is_workflows st
       = script_branch_result constants plugins operation_name m exec mr ri
           is_workflows st pre d.
Proof.
  intros Hd.
  destruct (run_or_empty_dict_pre st p d Hd)
    as (pre & src & Hpre & Hsrc & Hlook & _).
  exists pre. split; [exact Hpre|].
  unfold script_resource_branch, script_branch_result.
  rewrite (bind_returns _ _ _ _ _ Hsrc).
  rewrite (bind_returns _ _ _ _ _ (run_deepcopy _ _ _ Hlook)).
  pose proof (lookup_snoc (st ++ pre)%list d) as Hnew.
  rewrite (bind_returns _ _ _ _ _ (run_contains _ _ _ _ Hnew)).
  destruct (bool_decide (is_Some (d !! SCRIPT_PATH_PROPERTY constants))).
  { by rewrite <- app_assoc. }
  cbv zeta.
  rewrite (bind_returns _ _ _ _ _ (run_setitem _ _ _ _ _ Hnew)).
  rewrite insert_snoc, <- app_assoc.
  unfold script_branch_outcome, script_descriptor, script_path_entry,
    getitem_plugin, getitem_executor.
  destruct (plugins !! SCRIPT_PLUGIN_NAME constants) as [pl|];
    [|by destruct is_workflows].
  destruct is_workflows; [done|].
  destruct (Str.truthy exec); [done|].
  destruct (plugin_executor pl) eqn:E; unfold bind, ret; cbn;
    rewrite E; reflexivity.
Qed.

Lemma run_process_operation_missing_mapping
    (constants : constants_module) (uri_exists : string -> bool)
    (plugins : gmap string plugin) (operation_name : string)
    (oc : declaration) (error_code : Z) (partial_error_message : string)
    (resource_base : option string) (is_workflows : bool) (st : store) :
  mapping_field is_workflows oc = None ->
  process_operation constants uri_exists plugins operation_name oc
    error_code partial_error_message resource_base is_workflows st
  = (Raises (KeyError (if is_workflows then "mapping" else "implementation")),
     st).
Proof.
  intros Hm. unfold process_operation, bind, getitem_mapping.
  destruct is_workflows; simpl in *; by rewrite Hm.
Qed.

Lemma run_process_operation_missing_payload
    (constants : constants_module) (uri_exists : string -> bool)
    (plugins : gmap string plugin) (operation_name : string)
    (oc : declaration) (error_code : Z) (partial_error_message : string)
    (resource_base : option string) (is_workflows : bool) (m : string)
    (st : store) :
  mapping_field is_workflows oc = Some m ->
  payload_field is_workflows oc = None ->
  process_operation constants uri_exists plugins operation_name oc
    error_code partial_error_message resource_base is_workflows st
  = (Raises (KeyError (if is_workflows then "parameters" else "inputs")), st).
Proof.
  intros Hm Hp. unfold process_operation.
  rewrite (bind_returns _ _ _ _ _ (run_getitem_mapping _ _ _ _ Hm)).
  unfold bind, getitem_payload.
  destruct is_workflows; simpl in *; by rewrite Hp.
Qed.

Lemma truthy_false_empty (s : string) : Str.truthy s = false -> s = "".
Proof. by destruct s. Qed.

(** Whatever its arguments and the store, a call ends on one of the
    paths. *)
Lemma process_operation_run_case
    (constants : constants_module) (uri_exists : string -> bool)
    (plugins : gmap string plugin) (operation_name : string)
    (oc : declaration) (error_code : Z) (partial_error_message : string)
    (resource_base : option string) (is_workflows : bool) (st : store) :
  run_case constants uri_exists plugins operation_name oc error_code
    partial_error_message resource_base is_workflows st
    (process_operation constants uri_exists plugins operation_name oc
       error_code partial_error_message resource_base is_workflows st).
Proof.
  destruct (mapping_field is_workflows oc) as [m|] eqn:Hm.
  2:{ rewrite run_process_operation_missing_mapping by done.
      by apply case_no_mapping. }
  destruct (payload_field is_workflows oc) as [p|] eqn:Hp.
  2:{ rewrite (run_process_operation_missing_payload _ _ _ _ _ _ _ _ _ m)
        by done.
      by apply (case_no_payload _ _ _ _ _ _ _ _ _ _ m). }
  destruct (Str.truthy m) eqn:Ht.
  2:{ rewrite (run_process_operation_empty_mapping _ _ _ _ _ _ _ _ _ m p)
        by done.
      apply truthy_false_empty in Ht. subst m.
      destruct is_workflows.
      - by apply (case_empty_workflow _ _ _ _ _ _ _ _ _ _ p).
      - by apply (case_empty_operation _ _ _ _ _ _ _ _ _ _ p). }
  destruct (candidates plugins m) as [|a [|b rest]] eqn:Hc.
  - rewrite (run_process_operation_no_match _ _ _ _ _ _ _ _ _ m p) by done.
    destruct (resource_found uri_exists resource_base m) eqn:Hres.
    + assert (fallback_reached uri_exists plugins resource_base m) as Hfb.
      { split_and!.
        - by apply truthy_nonempty.
        - by apply candidates_nil.
        - by apply resource_found_available. }
      assert ((exists l, p = PyDict l /\ st !! l = None)
              \/ exists d, payload_content st p d) as [(l & -> & Hl) | [d Hd]].
      { destruct p as [|l]; [right; by exists ∅|].
        destruct (st !! l) as [d|] eqn:E; [right; by exists d|].
        left. by exists l. }
      * rewrite run_script_resource_branch_stuck by done.
        by apply (case_dangling _ _ _ _ _ _ _ _ _ _ m l).
      * destruct (run_script_resource_branch_pre constants plugins
                    operation_name m p
                    (str_or (oc_executor oc) constants.(LOCAL_AGENT))
                    (oc_max_retries oc) (oc_retry_interval oc) is_workflows
                    st d Hd) as (pre & Hpre & ->).
        by apply (case_script _ _ _ _ _ _ _ _ _ _ m p).
    + apply (case_unresolved _ _ _ _ _ _ _ _ _ _ m p); try done.
      by apply truthy_nonempty.
  - rewrite (run_process_operation_one_match _ _ _ _ _ _ _ _ _ m p _ a)
      by done.
    by apply (case_plugin _ _ _ _ _ _ _ _ _ _ m p).
  - rewrite (run_process_operation_many_matches _ _ _ _ _ _ _ _ _ m p _ a b
               rest) by done.
    by apply (case_ambiguous _ _ _ _ _ _ _ _ _ _ m p a b rest).
Qed.

(** ** Errors of the engine *)

(** X1: when the mapping is not empty, no registered plugin matches it and
    it names no resource under a supplied base, the engine raises the
    document error with the caller's code, whose text is the engine's
    sentence followed by the caller's wording; the store is untouched. *)
Theorem process_operation_unresolved
    (constants : constants_module) (uri_exists : string -> bool)
    (plugins : gmap string plugin) (operation_name : string)
    (oc : declaration) (error_code : Z) (partial_error_message : string)
    (resource_base : option string) (is_workflows : bool)
    (m : string) (p : payload) (st : store) :
  mapping_field is_workflows oc = Some m ->
  payload_field is_workflows oc = Some p ->
  m <> "" ->
  (forall P, is_Some (plugins !! P) -> ~ dot_prefix P m) ->
  ~ resource_available uri_exists resource_base m ->
  process_operation constants uri_exists plugins operation_name oc
    error_code partial_error_message resource_base is_workflows st
  = (Raises (DSLParsingLogicException error_code
       (Concat
          (Format
             "Could not extract plugin from {2} mapping '{0}', which is declared for {2} '{1}'. "
             [AStr m; AStr operation_name; AStr (kind_name is_workflows)])
          (Lit partial_error_message))), st).
Proof.
  intros Hm Hp Hne Hnone Hres.
  rewrite (run_process_operation_no_match constants uri_exists plugins
             operation_name oc error_code partial_error_message
             resource_base is_workflows m p st Hm Hp).
  - destruct (resource_found uri_exists resource_base m) eqn:E; [|done].
    apply resource_found_available in E. by destruct Hres.
  - by apply truthy_nonempty.
  - by apply candidates_nil.
Qed.

Lemma process_operation_unresolved_witness :
  process_operation sample_constants sample_uri_exists sample_plugins
    "create" (operation_declaration "scripts/missing.sh" PyNone)
    82 "In node type web." (Some "blueprint") false []
  = (Raises (DSLParsingLogicException 82
       (Concat
          (Format
             "Could not extract plugin from {2} mapping '{0}', which is declared for {2} '{1}'. "
             [AStr "scripts/missing.sh"; AStr "create"; AStr "operation"])
          (Lit "In node type web."))), []).
Proof.
  apply (process_operation_unresolved sample_constants sample_uri_exists
           sample_plugins "create"
           (operation_declaration "scripts/missing.sh" PyNone)
           82 "In node type web." (Some "blueprint") false
           "scripts/missing.sh" PyNone []).
  - reflexivity.
  - reflexivity.
  - discriminate.
  - apply candidates_nil. vm_compute. reflexivity.
  - intros H. apply resource_found_available in H. vm_compute in H.
    discriminate H.
Defined.

(** X2: when the fallback is reached, the payload does not declare the
    reserved key and no script plugin is registered, the engine raises the
    missing-script-plugin error (code 61); its text names the task
    identifier the mapping was rewritten to, not the script path.  The
    objects that existed before the call are unchanged. *)
Theorem process_operation_missing_script_plugin
    (constants : constants_module) (uri_exists : string -> bool)
    (plugins : gmap string plugin) (operation_name : string)
    (oc : declaration) (error_code : Z) (partial_error_message : string)
    (resource_base : option string) (is_workflows : bool)
    (m : string) (p : payload) (st : store) (d : pydict) :
  mapping_field is_workflows oc = Some m ->
  payload_field is_workflows oc = Some p ->
  fallback_reached uri_exists plugins resource_base m ->
  payload_content st p d ->
  d !! constants.(SCRIPT_PATH_PROPERTY) = None ->
  plugins !! constants.(SCRIPT_PLUGIN_NAME) = None ->
  exists st',
    process_operation constants uri_exists plugins operation_name oc
      error_code partial_error_message resource_base is_workflows st
    = (Raises (DSLParsingLogicException 61 (Format
         "Script plugin is not defined but it is required for mapping '{0}' of {1} '{2}'"
         [AStr (if is_workflows
                then constants.(SCRIPT_PLUGIN_EXECUTE_WORKFLOW_TASK)
                else constants.(SCRIPT_PLUGIN_RUN_TASK));
          AStr (kind_name is_workflows); AStr operation_name])), st')
    /\ forall l obj, st !! l = Some obj -> st' !! l = Some obj.
Proof.
  intros Hm Hp Hfb Hd Hkey Hscript.
  destruct (run_process_operation_fallback constants uri_exists plugins
              operation_name oc error_code partial_error_message
              resource_base is_workflows m p st d Hm Hp Hfb Hd)
    as [pre Hrun].
  rewrite Hrun. unfold script_branch_result. rewrite Hkey, Hscript.
  rewrite !bool_decide_eq_false_2 by (intros [? ?]; done).
  cbv zeta. eexists. split; [reflexivity|].
  intros l obj Hl. by apply lookup_app_l_Some.
Qed.

Lemma process_operation_missing_script_plugin_witness :
  exists st',
    process_operation sample_constants sample_uri_exists sample_plugins
      "install" (workflow_declaration "scripts/install.sh" (PyDict 0%nat))
      50 "" (Some "blueprint") true [ {[ "retries" := VNum (NInt 3) ]} ]
    = (Raises (DSLParsingLogicException 61 (Format
         "Script plugin is not defined but it is required for mapping '{0}' of {1} '{2}'"
         [AStr "script_runner.tasks.execute_workflow";
          AStr "workflow"; AStr "install"])), st')
    /\ forall l obj,
         [ ({[ "retries" := VNum (NInt 3) ]} : pydict) ] !! l = Some obj ->
         st' !! l = Some obj.
Proof.
  apply (process_operation_missing_script_plugin sample_constants
           sample_uri_exists sample_plugins "install"
           (workflow_declaration "scripts/install.sh" (PyDict 0%nat))
           50 "" (Some "blueprint") true "scripts/install.sh"
           (PyDict 0%nat) [ {[ "retries" := VNum (NInt 3) ]} ]
           {[ "retries" := VNum (NInt 3) ]}).
  - reflexivity.
  - reflexivity.
  - split_and!.
    + discriminate.
    + apply candidates_nil. vm_compute. reflexivity.
    + apply resource_found_available. vm_compute. reflexivity.
  - reflexivity.
  - vm_compute. reflexivity.
  - vm_compute. reflexivity.
Defined.

(** X3: a declaration without its mapping key makes the engine raise
    [KeyError] for that key ([mapping] for a workflow, [implementation]
    otherwise); with the mapping key but without the payload key it raises
    [KeyError] for the payload key ([parameters] or [inputs]), whatever the
    mapping is, even an empty one.  Nothing is created. *)
Theorem process_operation_missing_key
    (constants : constants_module) (uri_exists : string -> bool)
    (plugins : gmap string plugin) (operation_name : string)
    (oc : declaration) (error_code : Z) (partial_error_message : string)
    (resource_base : option string) (is_workflows : bool) (st : store) :
  (mapping_field is_workflows oc = None ->
   process_operation constants uri_exists plugins operation_name oc
     error_code partial_error_message resource_base is_workflows st
   = (Raises (KeyError (if is_workflows then "mapping"
                        else "implementation")), st))
  /\ (forall m,
        mapping_field is_workflows oc = Some m ->
        payload_field is_workflows oc = None ->
        process_operation constants uri_exists plugins operation_name oc
          error_code partial_error_message resource_base is_workflows st
        = (Raises (KeyError (if is_workflows then "parameters"
                             else "inputs")), st)).
Proof.
  split.
  - apply run_process_operation_missing_mapping.
  - intros m. apply run_process_operation_missing_payload.
Qed.

Lemma process_operation_missing_key_witness :
  process_operation sample_constants sample_uri_exists sample_plugins
    "install" (operation_declaration "p1.run" PyNone) 50 "" None true []
  = (Raises (KeyError "mapping"), [])
  /\ process_operation sample_constants sample_uri_exists sample_plugins
       "create"
       {| oc_implementation := Some "";
          oc_mapping := None;
          oc_inputs := None;
          oc_parameters := None;
          oc_executor := None;
          oc_max_retries := None;
          oc_retry_interval := None |}
       50 "" None false []
     = (Raises (KeyError "inputs"), []).
Proof.
  split.
  - apply (proj1 (process_operation_missing_key sample_constants
                    sample_uri_exists sample_plugins "install"
                    (operation_declaration "p1.run" PyNone) 50 "" None
                    true [])).
    reflexivity.
  - apply (proj2 (process_operation_missing_key sample_constants
                    sample_uri_exists sample_plugins "create"
                    {| oc_implementation := Some "";
                       oc_mapping := None;
                       oc_inputs := None;
                       oc_parameters := None;
                       oc_executor := None;
                       oc_max_retries := None;
                       oc_retry_interval := None |}
                    50 "" None false []) "");
      reflexivity.
Defined.

(** ** What a returned descriptor holds *)

(** X4: with exactly one matching plugin the engine creates nothing and
    hands the caller's payload on as it is, by reference: the descriptor's
    payload is the declaration's, not a copy.  For an operation the
    descriptor also carries the operation name and the declared
    [max_retries] and [retry_interval] unchanged. *)
Theorem process_operation_plugin_match_shares_payload
    (constants : constants_module) (uri_exists : string -> bool)
    (plugins : gmap string plugin) (operation_name : string)
    (oc : declaration) (error_code : Z) (partial_error_message : string)
    (resource_base : option string) (is_workflows : bool)
    (m : string) (p : payload) (st : store) (P : string) :
  mapping_field is_workflows oc = Some m ->
  payload_field is_workflows oc = Some p ->
  candidates plugins m = [P] ->
  exists desc,
    process_operation constants uri_exists plugins operation_name oc
      error_code partial_error_message resource_base is_workflows st
    = (Returns desc, st)
    /\ descriptor_payload desc = p
    /\ (is_workflows = false ->
        exists o, desc = Operation o
                  /\ op_name o = operation_name
                  /\ op_max_retries o = oc_max_retries oc
                  /\ op_retry_interval o = oc_retry_interval oc
                  /\ op_has_intrinsic_functions o = false).
Proof.
  intros Hm Hp Hc. eexists. split_and!.
  - by apply run_process_operation_one_match.
  - by destruct is_workflows.
  - intros ->. eexists. split_and!; reflexivity.
Qed.

Lemma process_operation_plugin_match_shares_payload_witness :
  exists desc,
    process_operation sample_constants sample_uri_exists sample_plugins
      "create"
      {| oc_implementation := Some "p1.tasks.create";
         oc_mapping := None;
         oc_inputs := Some (PyDict 0%nat);
         oc_parameters := None;
         oc_executor := None;
         oc_max_retries := Some 3;
         oc_retry_interval := Some (NInt 30) |}
      50 "" None false [ {[ "port" := VNum (NInt 80) ]} ]
    = (Returns desc, [ {[ "port" := VNum (NInt 80) ]} ])
    /\ descriptor_payload desc = PyDict 0%nat
    /\ (false = false ->
        exists o, desc = Operation o
                  /\ op_name o = "create"
                  /\ op_max_retries o = Some 3
                  /\ op_retry_interval o = Some (NInt 30)
                  /\ op_has_intrinsic_functions o = false).
Proof.
  apply (process_operation_plugin_match_shares_payload sample_constants
           sample_uri_exists sample_plugins "create"
           {| oc_implementation := Some "p1.tasks.create";
              oc_mapping := None;
              oc_inputs := Some (PyDict 0%nat);
              oc_parameters := None;
              oc_executor := None;
              oc_max_retries := Some 3;
              oc_retry_interval := Some (NInt 30) |}
           50 "" None false "p1.tasks.create" (PyDict 0%nat)
           [ {[ "port" := VNum (NInt 80) ]} ] "p1").
  - reflexivity.
  - reflexivity.
  - vm_compute. reflexivity.
Defined.

Lemma script_branch_outcome_inv
    (constants : constants_module) (plugins : gmap string plugin)
    (operation_name exec : string) (mr : option Z) (ri : option number)
    (is_workflows : bool) (l : loc) (desc : descriptor) :
  script_branch_outcome constants plugins operation_name exec mr ri
    is_workflows l = Returns desc ->
  exists e,
    desc = script_descriptor constants operation_name e mr ri is_workflows l
    /\ (Str.truthy exec = true -> e = exec).
Proof.
  unfold script_branch_outcome.
  destruct is_workflows; cbn [orb].
  - intros [= <-]. by exists exec.
  - destruct (Str.truthy exec).
    + intros [= <-]. by exists exec.
    + destruct (plugins !! SCRIPT_PLUGIN_NAME constants) as [pl|]; [|done].
      destruct (plugin_executor pl) as [e|]; [|done].
      intros [= <-]. by exists e.
Qed.

(** The three ways in which a call returns a descriptor. *)
Lemma process_operation_returns_inv
    (constants : constants_module) (uri_exists : string -> bool)
    (plugins : gmap string plugin) (operation_name : string)
    (oc : declaration) (error_code : Z) (partial_error_message : string)
    (resource_base : option string) (is_workflows : bool)
    (st st' : store) (desc : descriptor) :
  process_operation constants uri_exists plugins operation_name oc
    error_code partial_error_message resource_base is_workflows st
  = (Returns desc, st') ->
  (is_workflows = false
   /\ mapping_field is_workflows oc = Some ""
   /\ desc = Operation (_operation operation_name "" ""
                          (PyDict (length st)) constants.(LOCAL_AGENT)
                          None None)
   /\ st' = (st ++ [∅])%list)
  \/ (exists m p P,
        mapping_field is_workflows oc = Some m
        /\ payload_field is_workflows oc = Some p
        /\ candidates plugins m = [P]
        /\ desc = (if is_workflows
                   then Workflow (_workflow_operation P
                          (Str.slice_from (Str.len P + 1) m) p)
                   else Operation (_operation operation_name P
                          (Str.slice_from (Str.len P + 1) m) p
                          (plugin_branch_executor constants plugins oc P)
                          (oc_max_retries oc) (oc_retry_interval oc)))
        /\ st' = st)
  \/ (exists m p d pre e,
        mapping_field is_workflows oc = Some m
        /\ payload_field is_workflows oc = Some p
        /\ fallback_reached uri_exists plugins resource_base m
        /\ payload_content st p d
        /\ (pre = [] \/ pre = [∅])
        /\ d !! constants.(SCRIPT_PATH_PROPERTY) = None
        /\ is_Some (plugins !! constants.(SCRIPT_PLUGIN_NAME))
        /\ desc = script_descriptor constants operation_name e
                    (oc_max_retries oc) (oc_retry_interval oc) is_workflows
                    (length (st ++ pre)%list)
        /\ (Str.truthy (str_or (oc_executor oc) constants.(LOCAL_AGENT))
            = true ->
            e = str_or (oc_executor oc) constants.(LOCAL_AGENT))
        /\ st' = (st ++ pre ++
                  [<[constants.(SCRIPT_PATH_PROPERTY)
                     := script_path_entry is_workflows m]> d])%list).
Proof.
  intros Hrun.
  pose proof (process_operation_run_case constants uri_exists plugins
                operation_name oc error_code partial_error_message
                resource_base is_workflows st) as Hcase.
  rewrite Hrun in Hcase.
  remember (Returns desc, st') as r eqn:Er in Hcase.
  destruct Hcase as [Hm | m Hm Hp | p Hwf Hm Hp | p Hwf Hm Hp
                    | m p a b rest Hm Hp Hc | m p P Hm Hp Hc
                    | m p Hm Hp Hne Hc Hres | m l Hm Hp Hfb Hl
                    | m p d pre Hm Hp Hfb Hd Hpre];
    try discriminate Er.
  - injection Er as <- <-. left. done.
  - injection Er as <- <-. right. left. by exists m, p, P.
  - right. right. unfold script_branch_result in Er.
    destruct (bool_decide (is_Some (d !! SCRIPT_PATH_PROPERTY constants)))
      eqn:Hcol; [discriminate Er|].
    cbv zeta in Er.
    destruct (bool_decide (is_Some (plugins !! SCRIPT_PLUGIN_NAME constants)))
      eqn:Hreg; [|discriminate Er].
    injection Er as Hout <-.
    apply script_branch_outcome_inv in Hout as (e & -> & He).
    exists m, p, d, pre, e. split_and!; try done.
    + apply bool_decide_eq_false in Hcol.
      destruct (d !! SCRIPT_PATH_PROPERTY constants) eqn:E; [|done].
      destruct Hcol. by eexists.
    + by apply bool_decide_eq_true in Hreg.
Qed.

(** X5: whatever path is taken, a returned descriptor is of the kind asked
    for (a workflow descriptor when [is_workflows] is set, an operation
    descriptor otherwise); an operation descriptor bears the operation name
    it was resolved for, has [has_intrinsic_functions] false, and carries
    the declared [max_retries] and [retry_interval] unchanged, except on an
    empty mapping, where it has neither. *)
Theorem process_operation_descriptor_shape
    (constants : constants_module) (uri_exists : string -> bool)
    (plugins : gmap string plugin) (operation_name : string)
    (oc : declaration) (error_code : Z) (partial_error_message : string)
    (resource_base : option string) (is_workflows : bool)
    (st st' : store) (desc : descriptor) :
  process_operation constants uri_exists plugins operation_name oc
    error_code partial_error_message resource_base is_workflows st
  = (Returns desc, st') ->
  if is_workflows
  then exists w, desc = Workflow w
  else exists o,
         desc = Operation o
         /\ op_name o = operation_name
         /\ op_has_intrinsic_functions o = false
         /\ ((oc_implementation oc <> Some ""
              /\ op_max_retries o = oc_max_retries oc
              /\ op_retry_interval o = oc_retry_interval oc)
             \/ (oc_implementation oc = Some ""
                 /\ op_max_retries o = None
                 /\ op_retry_interval o = None)).
Proof.
  intros Hrun.
  destruct (process_operation_returns_inv _ _ _ _ _ _ _ _ _ _ _ _ Hrun)
    as [(Hwf & Hm & -> & _)
       | [(m & p & P & Hm & Hp & Hc & -> & _)
         | (m & p & d & pre & e & Hm & Hp & Hfb & _ & _ & _ & _ & -> & _)]].
  - subst is_workflows. eexists. split_and!; try reflexivity.
    right. done.
  - destruct is_workflows; [by eexists|].
    eexists. split_and!; try reflexivity. left. split_and!; try done.
    simpl in Hm. rewrite Hm. intros [= ->].
    apply candidates_singleton in Hc as (_ & Hd & _).
    by apply dot_prefix_truthy in Hd.
  - unfold script_descriptor. destruct is_workflows; [by eexists|].
    eexists. split_and!; try reflexivity. left. split_and!; try done.
    simpl in Hm. rewrite Hm. intros [= ->]. by destruct Hfb as [? _].
Qed.

Lemma process_operation_descriptor_shape_witness :
  exists o,
    Operation (_operation "create" "script" "script_runner.tasks.run"
                 (PyDict 1%nat) "local_agent" (Some 2) None)
    = Operation o
    /\ op_name o = "create"
    /\ op_has_intrinsic_functions o = false
    /\ ((Some "scripts/install.sh" <> Some ""
         /\ op_max_retries o = Some 2
         /\ op_retry_interval o = None)
        \/ (Some "scripts/install.sh" = Some ""
            /\ op_max_retries o = None
            /\ op_retry_interval o = None)).
Proof.
  apply (process_operation_descriptor_shape sample_constants
           sample_uri_exists sample_plugins_with_script "create"
           {| oc_implementation := Some "scripts/install.sh";
              oc_mapping := None;
              oc_inputs := Some (PyDict 0%nat);
              oc_parameters := None;
              oc_executor := None;
              oc_max_retries := Some 2;
              oc_retry_interval := None |}
           50 "" (Some "blueprint") false
           [ {[ "retries" := VNum (NInt 3) ]} ]
           [ {[ "retries" := VNum (NInt 3) ]};
             <["script_path" := VStr "scripts/install.sh"]>
               {[ "retries" := VNum (NInt 3) ]} ]).
  vm_compute. reflexivity.
Defined.

(** X6: the executor of a returned operation descriptor.  A declared,
    non-empty executor is used as it is whenever the mapping is not empty
    (on an empty mapping the no-op descriptor has the default executor
    whatever is declared); and as soon as the default executor name is not
    empty, no returned operation descriptor has an empty executor. *)
Theorem process_operation_executor
    (constants : constants_module) (uri_exists : string -> bool)
    (plugins : gmap string plugin) (operation_name : string)
    (oc : declaration) (error_code : Z) (partial_error_message : string)
    (resource_base : option string) (st st' : store) (o : operation) :
  process_operation constants uri_exists plugins operation_name oc
    error_code partial_error_message resource_base false st
  = (Returns (Operation o), st') ->
  (forall e, oc_executor oc = Some e -> e <> "" ->
             oc_implementation oc <> Some "" -> op_executor o = e)
  /\ (oc_implementation oc = Some "" ->
      op_executor o = constants.(LOCAL_AGENT))
  /\ (constants.(LOCAL_AGENT) <> "" -> op_executor o <> "").
Proof.
  intros Hrun.
  destruct (process_operation_returns_inv _ _ _ _ _ _ _ _ _ _ _ _ Hrun)
    as [(_ & Hm & [= ->] & _)
       | [(m & p & P & Hm & Hp & Hc & [= ->] & _)
         | (m & p & d & pre & e & Hm & Hp & Hfb & _ & _ & _ & _ & [= ->]
            & He & _)]];
    simpl in Hm.
  - split_and!; [by intros e _ _ [] | done | done].
  - assert (m <> "") as Hne.
    { apply candidates_singleton in Hc as (_ & Hd & _).
      apply truthy_nonempty. by apply (dot_prefix_truthy P). }
    cbn [op_executor _operation]. split_and!.
    + intros e He Hnon _. unfold plugin_branch_executor. cbv zeta.
      rewrite He. cbn [str_or].
      apply truthy_nonempty in Hnon. by rewrite Hnon, Hnon.
    + intros E. rewrite Hm in E. by injection E.
    + intros Hla. apply truthy_nonempty in Hla.
      rewrite plugin_branch_executor_default by done.
      apply truthy_nonempty. by apply str_or_truthy.
  - assert (m <> "") as Hne by (by destruct Hfb).
    cbn [op_executor _operation]. split_and!.
    + intros e' He' Hnon _. rewrite He' in He. cbn [str_or] in He.
      apply truthy_nonempty in Hnon. rewrite Hnon in He. by apply He.
    + intros E. rewrite Hm in E. by injection E.
    + intros Hla. apply truthy_nonempty in Hla.
      rewrite He by (by apply str_or_truthy).
      apply truthy_nonempty. by apply str_or_truthy.
Qed.

Lemma process_operation_executor_witness :
  (forall e, Some "host_agent" = Some e -> e <> "" ->
             Some "p1.run" <> Some "" ->
             op_executor (_operation "create" "p1" "run" PyNone "host_agent"
                            None None) = e)
  /\ (Some "p1.run" = Some "" ->
      op_executor (_operation "create" "p1" "run" PyNone "host_agent"
                     None None) = "local_agent")
  /\ ("local_agent" <> "" ->
      op_executor (_operation "create" "p1" "run" PyNone "host_agent"
                     None None) <> "").
Proof.
  apply (process_operation_executor sample_constants sample_uri_exists
           sample_plugins "create"
           {| oc_implementation := Some "p1.run";
              oc_mapping := None;
              oc_inputs := Some PyNone;
              oc_parameters := None;
              oc_executor := Some "host_agent";
              oc_max_retries := None;
              oc_retry_interval := None |}
           50 "" None [] []).
  vm_compute. reflexivity.
Defined.

(** ** What a call does to the store *)

Lemma process_operation_store
    (constants : constants_module) (uri_exists : string -> bool)
    (plugins : gmap string plugin) (operation_name : string)
    (oc : declaration) (error_code : Z) (partial_error_message : string)
    (resource_base : option string) (is_workflows : bool) (st : store) :
  exists new : store,
    snd (process_operation constants uri_exists plugins operation_name oc
           error_code partial_error_message resource_base is_workflows st)
    = (st ++ new)%list
    /\ (length new <= 2)%nat.
Proof.
  pose proof (process_operation_run_case constants uri_exists plugins
                operation_name oc error_code partial_error_message
                resource_base is_workflows st) as Hcase.
  destruct Hcase as [Hm | m Hm Hp | p Hwf Hm Hp | p Hwf Hm Hp
                    | m p a b rest Hm Hp Hc | m p P Hm Hp Hc
                    | m p Hm Hp Hne Hc Hres | m l Hm Hp Hfb Hl
                    | m p d pre Hm Hp Hfb Hd Hpre];
    cbn [snd];
    try (exists []; rewrite app_nil_r; split; [reflexivity | simpl; lia]).
  - exists [∅]. split; [reflexivity | simpl; lia].
  - unfold script_branch_result.
    destruct (bool_decide (is_Some (d !! SCRIPT_PATH_PROPERTY constants)));
      [|cbv zeta;
        destruct (bool_decide
                    (is_Some (plugins !! SCRIPT_PLUGIN_NAME constants)))];
      cbn [snd]; eexists; (split; [reflexivity|]);
      rewrite length_app; destruct Hpre as [-> | ->]; simpl; lia.
Qed.

(** X7: whatever its arguments, and whether it returns or raises, a call
    of the engine only adds objects to the store, at most two of them: no
    object that existed before the call is changed or removed. *)
Theorem process_operation_only_allocates
    (constants : constants_module) (uri_exists : string -> bool)
    (plugins : gmap string plugin) (operation_name : string)
    (oc : declaration) (error_code : Z) (partial_error_message : string)
    (resource_base : option string) (is_workflows : bool) (st : store) :
  exists new : store,
    snd (process_operation constants uri_exists plugins operation_name oc
           error_code partial_error_message resource_base is_workflows st)
    = (st ++ new)%list
    /\ (length new <= 2)%nat
    /\ forall l obj,
         st !! l = Some obj ->
         snd (process_operation constants uri_exists plugins operation_name
                oc error_code partial_error_message resource_base
                is_workflows st) !! l = Some obj.
Proof.
  destruct (process_operation_store constants uri_exists plugins
              operation_name oc error_code partial_error_message
              resource_base is_workflows st) as (new & Hnew & Hlen).
  exists new. split_and!; [done | done |].
  intros l obj Hl. rewrite Hnew. by apply lookup_app_l_Some.
Qed.

(** ** The resource probe *)

(** X8: the engine consults the resource probe at one place only, the
    location made of the resource base, a slash and the mapping string, and
    only for a non-empty resource base: two probes that agree there give
    the same outcome and the same store. *)
Theorem process_operation_probe
    (constants : constants_module) (probe1 probe2 : string -> bool)
    (plugins : gmap string plugin) (operation_name : string)
    (oc : declaration) (error_code : Z) (partial_error_message : string)
    (resource_base : option string) (is_workflows : bool) (st : store) :
  (forall m rb,
     mapping_field is_workflows oc = Some m ->
     resource_base = Some rb -> rb <> "" ->
     probe1 (rb ++ "/" ++ m) = probe2 (rb ++ "/" ++ m)) ->
  process_operation constants probe1 plugins operation_name oc
    error_code partial_error_message resource_base is_workflows st
  = process_operation constants probe2 plugins operation_name oc
      error_code partial_error_message resource_base is_workflows st.
Proof.
  intros Hagree.
  destruct (mapping_field is_workflows oc) as [m|] eqn:Hm.
  2:{ by rewrite !run_process_operation_missing_mapping. }
  destruct (payload_field is_workflows oc) as [p|] eqn:Hp.
  2:{ by rewrite !(run_process_operation_missing_payload _ _ _ _ _ _ _ _ _ m). }
  destruct (Str.truthy m) eqn:Ht.
  2:{ by rewrite !(run_process_operation_empty_mapping _ _ _ _ _ _ _ _ _ m p). }
  destruct (candidates plugins m) as [|a [|b rest]] eqn:Hc.
  - rewrite !(run_process_operation_no_match _ _ _ _ _ _ _ _ _ m p) by done.
    assert (resource_found probe1 resource_base m
            = resource_found probe2 resource_base m) as ->; [|done].
    unfold resource_found, _resource_exists.
    destruct resource_base as [rb|]; [|done].
    destruct (Str.truthy rb) eqn:Hrb; [|done].
    cbn [andb]. apply Hagree; [done | done |]. by apply truthy_nonempty.
  - by rewrite !(run_process_operation_one_match _ _ _ _ _ _ _ _ _ m p _ a).
  - by rewrite !(run_process_operation_many_matches _ _ _ _ _ _ _ _ _ m p _
                   a b rest).
Qed.

Lemma process_operation_probe_witness :
  process_operation sample_constants sample_uri_exists sample_plugins
    "create" (operation_declaration "scripts/install.sh" PyNone)
    50 "" (Some "") false []
  = process_operation sample_constants (fun _ => true) sample_plugins
      "create" (operation_declaration "scripts/install.sh" PyNone)
      50 "" (Some "") false [].
Proof.
  apply (process_operation_probe sample_constants sample_uri_exists
           (fun _ => true) sample_plugins "create"
           (operation_declaration "scripts/install.sh" PyNone)
           50 "" (Some "") false []).
  intros m rb _ [= <-] Hne. by destruct Hne.
Defined.

(** ** Plugin names that contain one another *)





(** ** Resolving a whole interface *)

Lemma bind_assoc {A B C} (m : M A) (k : A -> M B) (h : B -> M C)
    (st : store) :
  bind (bind m k) h st = bind m (fun a => bind (k a) h) st.
Proof. unfold bind. by destruct (m st) as [[a|e|] st']. Qed.

Lemma bind_ret_r {A} (m : M A) (st : store) : bind m ret st = m st.
Proof. unfold bind, ret. by destruct (m st) as [[a|e|] st']. Qed.

Lemma bind_ext {A B} (m : M A) (k k' : A -> M B) (st : store) :
  (forall a st', k a st' = k' a st') -> bind m k st = bind m k' st.
Proof. intros H. unfold bind. by destruct (m st) as [[a|e|] st']. Qed.

Lemma bind_cong {A B} (m m' : M A) (k : A -> M B) (st : store) :
  m st = m' st -> bind m k st = bind m' k st.
Proof. intros H. unfold bind. by rewrite H. Qed.

Lemma comprehension_app {A B} (f : A -> M B) (i1 i2 : list A) (st : store) :
  comprehension f (i1 ++ i2)%list st
  = bind (comprehension f i1)
      (fun a => bind (comprehension f i2) (fun b => ret (a ++ b)%list)) st.
Proof.
  revert st. induction i1 as [|x i1 IH]; intros st.
  - cbn [comprehension app]. symmetry. apply bind_ret_r.
  - cbn [comprehension app]. rewrite bind_assoc.
    apply bind_ext. intros y st1.
    rewrite (bind_cong _ _ _ _ (IH st1)), !bind_assoc.
    apply bind_ext. intros ys st2.
    rewrite bind_assoc. reflexivity.
Qed.

Lemma comprehension_store {A B} (f : A -> M B) (k : nat) (items : list A) :
  (forall x st, exists new : store,
      snd (f x st) = (st ++ new)%list /\ (length new <= k)%nat) ->
  forall st, exists new : store,
    snd (comprehension f items st) = (st ++ new)%list
    /\ (length new <= k * length items)%nat.
Proof.
  intros Hf. induction items as [|x items IH]; intros st.
  - exists []. rewrite app_nil_r. split; [done | simpl; lia].
  - cbn [comprehension]. unfold bind at 1.
    destruct (Hf x st) as (new1 & H1 & Hlen1).
    destruct (f x st) as [[y|e|] st1]; cbn [snd] in H1; subst st1;
      cbn [snd]; try (exists new1; split; [done | simpl; lia]).
    unfold bind at 1.
    destruct (IH (st ++ new1)%list) as (new2 & H2 & Hlen2).
    destruct (comprehension f items (st ++ new1)%list) as [[ys|e|] st2];
      cbn [snd] in H2; subst st2; cbn [snd]; exists (new1 ++ new2)%list;
      rewrite app_assoc, length_app; (split; [done | simpl; lia]).
Qed.

Lemma process_operation_returns_operation
    (constants : constants_module) (uri_exists : string -> bool)
    (plugins : gmap string plugin) (operation_name : string)
    (oc : declaration) (error_code : Z) (partial_error_message : string)
    (resource_base : option string) (st st' : store) (desc : descriptor) :
  process_operation constants uri_exists plugins operation_name oc
    error_code partial_error_message resource_base false st
  = (Returns desc, st') ->
  exists o, desc = Operation o /\ op_name o = operation_name.
Proof.
  intros Hrun.
  destruct (process_operation_returns_inv _ _ _ _ _ _ _ _ _ _ _ _ Hrun)
    as [(_ & _ & -> & _)
       | [(m & p & P & _ & _ & _ & -> & _)
         | (m & p & d & pre & e & _ & _ & _ & _ & _ & _ & _ & -> & _)]];
    by eexists.
Qed.


(** X11: the first operation that fails ends the resolution of the
    interface: when the operations before it resolve and it raises, the
    whole call raises the same exception on the store reached at that
    point, whatever is declared after it. *)
Theorem process_interface_operations_first_error
    (constants : constants_module) (uri_exists : string -> bool)
    (i1 i2 : list (string * declaration)) (operation_name : string)
    (oc : declaration) (plugins : gmap string plugin) (error_code : Z)
    (partial_error_message : string) (resource_base : option string)
    (st st1 st2 : store) (ds : list descriptor) (e : exception) :
  process_interface_operations constants uri_exists i1 plugins
    error_code partial_error_message resource_base st
  = (Returns ds, st1) ->
  process_operation constants uri_exists plugins operation_name oc
    error_code partial_error_message resource_base false st1
  = (Raises e, st2) ->
  process_interface_operations constants uri_exists
    (i1 ++ (operation_name, oc) :: i2)%list plugins
    error_code partial_error_message resource_base st
  = (Raises e, st2).
Proof.
  intros H1 H2. unfold process_interface_operations in *.
  rewrite comprehension_app. rewrite (bind_returns _ _ _ _ _ H1).
  cbn [comprehension fst snd]. unfold bind. by rewrite H2.
Qed.

Lemma process_interface_operations_first_error_witness :
  process_interface_operations sample_constants sample_uri_exists
    ([("create", operation_declaration "p1.create" PyNone)]
     ++ ("start", operation_declaration "p3.start" PyNone)
        :: [("stop", operation_declaration "p1.stop" PyNone)])%list
    sample_plugins 82 "In node type web." None []
  = (Raises (DSLParsingLogicException 82
       (Concat
          (Format
             "Could not extract plugin from {2} mapping '{0}', which is declared for {2} '{1}'. "
             [AStr "p3.start"; AStr "start"; AStr "operation"])
          (Lit "In node type web."))), []).
Proof.
  apply (process_interface_operations_first_error sample_constants
           sample_uri_exists
           [("create", operation_declaration "p1.create" PyNone)]
           [("stop", operation_declaration "p1.stop" PyNone)]
           "start" (operation_declaration "p3.start" PyNone)
           sample_plugins 82 "In node type web." None [] [] []
           [Operation (_operation "create" "p1" "create" PyNone
                         "local_agent" None None)]).
  - vm_compute. reflexivity.
  - vm_compute. reflexivity.
Defined.

(** X12: when the resolution of an interface returns, it returns one
    descriptor per declared operation, in the order of the declarations,
    each of them an operation descriptor bearing the name of the operation
    it stands for. *)
Theorem process_interface_operations_descriptors
    (constants : constants_module) (uri_exists : string -> bool)
    (interface : list (string * declaration))
    (plugins : gmap string plugin) (error_code : Z)
    (partial_error_message : string) (resource_base : option string)
    (st st' : store) (ds : list descriptor) :
  process_interface_operations constants uri_exists interface plugins
    error_code partial_error_message resource_base st
  = (Returns ds, st') ->
  Forall2 (fun item desc => exists o, desc = Operation o
                                      /\ op_name o = fst item)
    interface ds.
Proof.
  unfold process_interface_operations.
  revert st st' ds.
  induction interface as [|[n oc] interface IH]; intros st st' ds.
  - intros [= <- _]. constructor.
  - cbn [comprehension fst snd]. unfold bind at 1.
    destruct (process_operation constants uri_exists plugins n oc error_code
                partial_error_message resource_base false st)
      as [[desc|e|] st1] eqn:H1; [|done..].
    unfold bind at 1.
    destruct (comprehension _ interface st1) as [[ys|e|] st2] eqn:H2;
      [|done..].
    intros [= <- _]. constructor.
    + by apply process_operation_returns_operation in H1.
    + by apply (IH st1 st2).
Qed.

Lemma process_interface_operations_descriptors_witness :
  Forall2 (fun item desc => exists o, desc = Operation o
                                      /\ op_name o = fst item)
    [("create", operation_declaration "p1.create" PyNone);
     ("configure", operation_declaration "" PyNone);
     ("start", operation_declaration "p2.tasks.start" PyNone)]
    [Operation (_operation "create" "p1" "create" PyNone "local_agent"
                  None None);
     Operation (_operation "configure" "" "" (PyDict 0%nat) "local_agent"
                  None None);
     Operation (_operation "start" "p2" "tasks.start" PyNone "local_agent"
                  None None)].
Proof.
  apply (process_interface_operations_descriptors sample_constants
           sample_uri_exists
           [("create", operation_declaration "p1.create" PyNone);
            ("configure", operation_declaration "" PyNone);
            ("start", operation_declaration "p2.tasks.start" PyNone)]
           sample_plugins 82 "" None [] [∅]).
  vm_compute. reflexivity.
Defined.

(** X13: resolving an interface only adds objects to the store, at most
    two for each declared operation, whether it returns or raises: the
    declarations' payloads and every other object that existed are left as
    they were. *)
Theorem process_interface_operations_only_allocates
    (constants : constants_module) (uri_exists : string -> bool)
    (interface : list (string * declaration))
    (plugins : gmap string plugin) (error_code : Z)
    (partial_error_message : string) (resource_base : option string)
    (st : store) :
  exists new : store,
    snd (process_interface_operations constants uri_exists interface plugins
           error_code partial_error_message resource_base st)
    = (st ++ new)%list
    /\ (length new <= 2 * length interface)%nat
    /\ forall l obj,
         st !! l = Some obj ->
         snd (process_interface_operations constants uri_exists interface
                plugins error_code partial_error_message resource_base st)
         !! l = Some obj.
Proof.
  unfold process_interface_operations.
  destruct (comprehension_store
              (fun item : string * declaration =>
                 process_operation constants uri_exists plugins (fst item)
                   (snd item) error_code partial_error_message
                   resource_base false)
              2 interface) with (st := st) as (new & Hnew & Hlen).
  { intros x st0. apply process_operation_store. }
  exists new. split_and!; [done | done |].
  intros l obj Hl. rewrite Hnew. by apply lookup_app_l_Some.
Qed.

Lemma process_operation_only_allocates_witness :
  exists new : store,
    snd (process_operation sample_constants sample_uri_exists
           sample_plugins_with_script "create"
           (operation_declaration "scripts/install.sh" PyNone)
           50 "" (Some "blueprint") false [ {[ "port" := VNum (NInt 80) ]} ])
    = ([ {[ "port" := VNum (NInt 80) ]} ] ++ new)%list
    /\ (length new <= 2)%nat
    /\ forall l obj,
         [ ({[ "port" := VNum (NInt 80) ]} : pydict) ] !! l = Some obj ->
         snd (process_operation sample_constants sample_uri_exists
                sample_plugins_with_script "create"
                (operation_declaration "scripts/install.sh" PyNone)
                50 "" (Some "blueprint") false
                [ {[ "port" := VNum (NInt 80) ]} ]) !! l = Some obj.
Proof.
  apply (process_operation_only_allocates sample_constants sample_uri_exists
           sample_plugins_with_script "create"
           (operation_declaration "scripts/install.sh" PyNone)
           50 "" (Some "blueprint") false [ {[ "port" := VNum (NInt 80) ]} ]).
Defined.

Lemma process_interface_operations_only_allocates_witness :
  exists new : store,
    snd (process_interface_operations sample_constants sample_uri_exists
           [("create", operation_declaration "scripts/install.sh" PyNone);
            ("start", operation_declaration "" PyNone)]
           sample_plugins_with_script 82 "" (Some "blueprint")
           [ {[ "port" := VNum (NInt 80) ]} ])
    = ([ {[ "port" := VNum (NInt 80) ]} ] ++ new)%list
    /\ (length new <= 2 * 2)%nat
    /\ forall l obj,
         [ ({[ "port" := VNum (NInt 80) ]} : pydict) ] !! l = Some obj ->
         snd (process_interface_operations sample_constants
                sample_uri_exists
                [("create", operation_declaration "scripts/install.sh" PyNone);
                 ("start", operation_declaration "" PyNone)]
                sample_plugins_with_script 82 "" (Some "blueprint")
                [ {[ "port" := VNum (NInt 80) ]} ]) !! l = Some obj.
Proof.
  apply (process_interface_operations_only_allocates sample_constants
           sample_uri_exists
           [("create", operation_declaration "scripts/install.sh" PyNone);
            ("start", operation_declaration "" PyNone)]
           sample_plugins_with_script 82 "" (Some "blueprint")
           [ {[ "port" := VNum (NInt 80) ]} ]).
Defined.

(** ** The executor field *)

(** X14: the executor validator accepts exactly an absent executor and the
    default executor name; any other declared value makes it raise the
    illegal-executor error (code 28), whose text is built from the
    operation's full name (interface, dot, operation), the offending value
    and the valid values. *)
Theorem executor_validate_accepts
    (constants : constants_module) (self : Element string)
    (interface_name operation_name : string) :
  (OperationExecutor.validate constants self interface_name operation_name
   = Returns tt
   <-> initial_value self = None
       \/ initial_value self = Some constants.(LOCAL_AGENT))
  /\ (forall value,
        initial_value self = Some value ->
        value <> constants.(LOCAL_AGENT) ->
        OperationExecutor.validate constants self interface_name
          operation_name
        = Raises (DSLParsingLogicException 28 (Format
            "Operation '{0}' has an illegal executor value '{1}'. valid values are {2}"
            [AStr (interface_name ++ "." ++ operation_name); AStr value;
             AStrList [constants.(LOCAL_AGENT)]]))).
Proof.
  unfold OperationExecutor.validate, OperationExecutor.valid_executors.
  destruct (initial_value self) as [value|]; cbn [existsb orb].
  - rewrite orb_false_r.
    destruct (String.eqb value (LOCAL_AGENT constants)) eqn:E; cbn [negb].
    + apply String.eqb_eq in E. subst value. split.
      * split; [by right | done].
      * intros value [= <-] Hne. by destruct Hne.
    + apply String.eqb_neq in E. split.
      * split; [discriminate | intros [[=] | [= ->]]; by destruct E].
      * by intros ? [= <-] _.
  - split; [split; [by left | done] | by intros ? [=]].
Qed.

Lemma executor_validate_accepts_witness :
  OperationExecutor.validate sample_constants
    {| name := "executor"; initial_value := Some "host_agent" |}
    "lifecycle" "create"
  = Raises (DSLParsingLogicException 28 (Format
      "Operation '{0}' has an illegal executor value '{1}'. valid values are {2}"
      [AStr "lifecycle.create"; AStr "host_agent";
       AStrList ["local_agent"]])).
Proof.
  apply (proj2 (executor_validate_accepts sample_constants
                  {| name := "executor"; initial_value := Some "host_agent" |}
                  "lifecycle" "create") "host_agent").
  - reflexivity.
  - discriminate.
Defined.

(** X15: for a declaration whose executor field passes the executor
    validator, every operation descriptor the engine returns has the
    default executor (once that name is not empty). *)
Theorem validated_executor_resolves_to_default
    (constants : constants_module) (uri_exists : string -> bool)
    (plugins : gmap string plugin) (operation_name : string)
    (oc : declaration) (error_code : Z) (partial_error_message : string)
    (resource_base : option string) (st st' : store) (o : operation)
    (field_name interface_name : string) :
  constants.(LOCAL_AGENT) <> "" ->
  OperationExecutor.validate constants
    {| name := field_name; initial_value := oc_executor oc |}
    interface_name operation_name
  = Returns tt ->
  process_operation constants uri_exists plugins operation_name oc
    error_code partial_error_message resource_base false st
  = (Returns (Operation o), st') ->
  op_executor o = constants.(LOCAL_AGENT).
Proof.
  intros Hla Hvalid Hrun. apply truthy_nonempty in Hla.
  assert (str_or (oc_executor oc) constants.(LOCAL_AGENT)
          = constants.(LOCAL_AGENT)) as Hexec.
  { revert Hvalid.
    unfold OperationExecutor.validate, OperationExecutor.valid_executors.
    cbn [initial_value existsb]. destruct (oc_executor oc) as [value|];
      [|done].
    rewrite orb_false_r.
    destruct (String.eqb value (LOCAL_AGENT constants)) eqn:E; [|done].
    apply String.eqb_eq in E. subst value. intros _.
    cbn [str_or]. by rewrite Hla. }
  destruct (process_operation_returns_inv _ _ _ _ _ _ _ _ _ _ _ _ Hrun)
    as [(_ & _ & [= ->] & _)
       | [(m & p & P & _ & _ & _ & [= ->] & _)
         | (m & p & d & pre & e & _ & _ & _ & _ & _ & _ & _ & [= ->]
            & He & _)]];
    cbn [op_executor _operation].
  - done.
  - by rewrite plugin_branch_executor_default.
  - rewrite He, Hexec; [done|]. by rewrite Hexec.
Qed.

Lemma validated_executor_resolves_to_default_witness :
  op_executor (_operation "create" "p1" "run" PyNone "local_agent"
                 None None)
  = "local_agent".
Proof.
  apply (validated_executor_resolves_to_default sample_constants
           sample_uri_exists sample_plugins "create"
           {| oc_implementation := Some "p1.run";
              oc_mapping := None;
              oc_inputs := Some PyNone;
              oc_parameters := None;
              oc_executor := Some "local_agent";
              oc_max_retries := None;
              oc_retry_interval := None |}
           50 "" None [] []
           (_operation "create" "p1" "run" PyNone "local_agent" None None)
           "executor" "lifecycle").
  - discriminate.
  - reflexivity.
  - vm_compute. reflexivity.
Defined.

(** ** Shorthand declarations *)

(** X16: an operation declared by a bare string is parsed into a record
    that has both keys the engine reads, so that resolving it never raises
    [KeyError]; and every descriptor resolved from it is an operation
    descriptor with the default executor and neither [max_retries] nor
    [retry_interval] (the default executor name being non-empty). *)
Theorem shorthand_operation_resolves
    (constants : constants_module) (uri_exists : string -> bool)
    (raw_record : Type) (build_dict_result : raw_record -> M declaration)
    (plugins : gmap string plugin) (operation_name implementation : string)
    (error_code : Z) (partial_error_message : string)
    (resource_base : option string) (st st' : store)
    (r : outcome descriptor) :
  constants.(LOCAL_AGENT) <> "" ->
  bind (Operation.parse constants raw_record build_dict_result
          (inl implementation))
    (fun operation_content =>
       process_operation constants uri_exists plugins operation_name
         operation_content error_code partial_error_message resource_base
         false) st
  = (r, st') ->
  (forall key, r <> Raises (KeyError key))
  /\ r <> Stuck
  /\ (forall desc, r = Returns desc ->
        exists o, desc = Operation o
                  /\ op_executor o = constants.(LOCAL_AGENT)
                  /\ op_max_retries o = None
                  /\ op_retry_interval o = None).
Proof.
  intros Hla. apply truthy_nonempty in Hla.
  unfold Operation.parse. rewrite bind_assoc.
  unfold bind at 1, alloc at 1. unfold bind at 1, ret at 1.
  set (oc := {| oc_implementation := Some implementation;
                oc_mapping := None;
                oc_inputs := Some (PyDict (length st));
                oc_parameters := None;
                oc_executor := Some (LOCAL_AGENT constants);
                oc_max_retries := None;
                oc_retry_interval := None |}).
  assert (str_or (oc_executor oc) constants.(LOCAL_AGENT)
          = constants.(LOCAL_AGENT)) as Hexec.
  { cbn [oc oc_executor str_or]. by rewrite Hla. }
  intros Hrun.
  pose proof (process_operation_run_case constants uri_exists plugins
                operation_name oc error_code partial_error_message
                resource_base false (st ++ [∅])%list) as Hcase.
  rewrite Hrun in Hcase.
  remember (r, st') as res eqn:Er in Hcase.
  destruct Hcase as [Hm | m Hm Hp | p Hwf Hm Hp | p Hwf Hm Hp
                    | m p a b rest Hm Hp Hc | m p P Hm Hp Hc
                    | m p Hm Hp Hne Hc Hres | m l Hm Hp Hfb Hl
                    | m p d pre Hm Hp Hfb Hd Hpre];
    try discriminate.
  - injection Er as <- _. split_and!; try done.
    intros desc [= <-]. by eexists.
  - injection Er as <- _. split_and!; try done.
  - injection Er as <- _. split_and!; try done.
    intros desc [= <-]. eexists. split_and!; try reflexivity.
    cbn [op_executor _operation]. rewrite plugin_branch_executor_default by done.
    exact Hexec.
  - injection Er as <- _. split_and!; try done.
  - injection Hp as <-. rewrite lookup_snoc in Hl. discriminate Hl.
  - unfold script_branch_result in Er. rewrite Hexec in Er.
    destruct (bool_decide (is_Some (d !! SCRIPT_PATH_PROPERTY constants)));
      [injection Er as <- _; split_and!; done|].
    cbv zeta in Er.
    destruct (bool_decide (is_Some (plugins !! SCRIPT_PLUGIN_NAME constants)));
      [|injection Er as <- _; split_and!; done].
    rewrite script_branch_outcome_returns in Er by done.
    injection Er as <- _. split_and!; try done.
    intros desc [= <-]. by eexists.
Qed.

Lemma shorthand_operation_resolves_witness :
  (forall key,
     Returns (Operation (_operation "create" "p1" "run" (PyDict 0%nat)
                           "local_agent" None None))
     <> Raises (KeyError key))
  /\ Returns (Operation (_operation "create" "p1" "run" (PyDict 0%nat)
                           "local_agent" None None)) <> Stuck
  /\ (forall desc,
        Returns (Operation (_operation "create" "p1" "run" (PyDict 0%nat)
                              "local_agent" None None)) = Returns desc ->
        exists o, desc = Operation o
                  /\ op_executor o = "local_agent"
                  /\ op_max_retries o = None
                  /\ op_retry_interval o = None).
Proof.
  apply (shorthand_operation_resolves sample_constants sample_uri_exists
           unit (fun _ => raise (KeyError "implementation"))
           sample_plugins "create" "p1.run" 50 "" None [] [∅]).
  - discriminate.
  - vm_compute. reflexivity.
Defined.

(** ** Template inputs *)

(** X17: parsing the inputs of a template operation never yields [None]:
    a declared non-empty [dict] is returned itself, the same object and not
    a copy, leaving the store as it was; absent inputs and an empty [dict]
    both give a newly created empty [dict]. *)
Theorem template_inputs_parse
    (self : Element loc) (st : store) :
  (forall l d,
     initial_value self = Some l -> st !! l = Some d -> d <> ∅ ->
     NodeTemplateOperationInputs.parse self st = (Returns l, st))
  /\ (initial_value self = None
      \/ (exists l, initial_value self = Some l /\ st !! l = Some ∅) ->
      NodeTemplateOperationInputs.parse self st
      = (Returns (length st), (st ++ [∅])%list)).
Proof.
  unfold NodeTemplateOperationInputs.parse, or_empty_dict. split.
  - intros l d -> Hl Hd.
    rewrite (bind_returns _ _ _ _ _ (run_read _ _ _ Hl)).
    destruct (Nat.eqb (size d) 0) eqn:E; [|done].
    apply Nat.eqb_eq, map_size_empty_iff in E. by destruct Hd.
  - intros [-> | (l & -> & Hl)]; [done|].
    by rewrite (bind_returns _ _ _ _ _ (run_read _ _ _ Hl)).
Qed.

Lemma template_inputs_parse_witness :
  NodeTemplateOperationInputs.parse
    {| name := "inputs"; initial_value := Some 0%nat |}
    [ {[ "port" := VNum (NInt 80) ]} ]
  = (Returns 0%nat, [ {[ "port" := VNum (NInt 80) ]} ])
  /\ NodeTemplateOperationInputs.parse
       {| name := "inputs"; initial_value := None |}
       [ {[ "port" := VNum (NInt 80) ]} ]
     = (Returns 1%nat, [ {[ "port" := VNum (NInt 80) ]}; ∅ ]).
Proof.
  split.
  - apply (proj1 (template_inputs_parse
                    {| name := "inputs"; initial_value := Some 0%nat |}
                    [ {[ "port" := VNum (NInt 80) ]} ])
             0%nat {[ "port" := VNum (NInt 80) ]}).
    + reflexivity.
    + reflexivity.
    + intros E. apply (f_equal (fun d : pydict => d !! "port")) in E.
      vm_compute in E. discriminate E.
  - apply (proj2 (template_inputs_parse
                    {| name := "inputs"; initial_value := None |}
                    [ {[ "port" := VNum (NInt 80) ]} ])).
    by left.
Defined.

(** ** Operations without an implementation *)

(** X18: an implementation that is not declared is parsed to the empty
    string, like one declared empty, and any other string is kept as it
    is; an operation whose mapping is the parsed value of an undeclared
    implementation therefore resolves to the no-op descriptor, whatever the
    registry and the resource base. *)
Theorem undeclared_implementation_is_noop
    (constants : constants_module) (uri_exists : string -> bool)
    (plugins : gmap string plugin) (operation_name : string)
    (oc : declaration) (error_code : Z) (partial_error_message : string)
    (resource_base : option string) (p : payload) (st : store)
    (self : Element string) :
  (OperationImplementation.parse self = ""
   <-> initial_value self = None \/ initial_value self = Some "")
  /\ (forall s, initial_value self = Some s ->
                OperationImplementation.parse self = s)
  /\ (initial_value self = None ->
      oc_implementation oc = Some (OperationImplementation.parse self) ->
      oc_inputs oc = Some p ->
      process_operation constants uri_exists plugins operation_name oc
        error_code partial_error_message resource_base false st
      = (Returns (Operation (_operation operation_name "" ""
                    (PyDict (length st)) constants.(LOCAL_AGENT)
                    None None)),
         (st ++ [∅])%list)).
Proof.
  unfold OperationImplementation.parse. split_and!.
  - destruct (initial_value self) as [s|]; split.
    + intros ->. by right.
    + by intros [[=] | [= ->]].
    + by left.
    + done.
  - by intros s ->.
  - intros -> Hm Hp.
    by rewrite (run_process_operation_empty_mapping constants uri_exists
                  plugins operation_name oc error_code partial_error_message
                  resource_base false "" p st Hm Hp eq_refl).
Qed.

Lemma undeclared_implementation_is_noop_witness :
  process_operation sample_constants sample_uri_exists sample_plugins
    "configure"
    (operation_declaration
       (OperationImplementation.parse
          {| name := "implementation"; initial_value := None |})
       (PyDict 0%nat))
    50 "" (Some "blueprint") false [ {[ "port" := VNum (NInt 80) ]} ]
  = (Returns (Operation (_operation "configure" "" "" (PyDict 1%nat)
                           "local_agent" None None)),
     [ {[ "port" := VNum (NInt 80) ]}; ∅ ]).
Proof.
  apply (proj2 (proj2 (undeclared_implementation_is_noop sample_constants
                         sample_uri_exists sample_plugins "configure"
                         (operation_declaration
                            (OperationImplementation.parse
                               {| name := "implementation";
                                  initial_value := None |})
                            (PyDict 0%nat))
                         50 "" (Some "blueprint") (PyDict 0%nat)
                         [ {[ "port" := VNum (NInt 80) ]} ]
                         {| name := "implementation";
                            initial_value := None |})));
    reflexivity.
Defined.
